(** * The-Universal-Bitcoin-Identity-Layer: regression-check harness

    A shallow embedding of the three Python sources of the repository:

    - [tests/test_static_analysis.py]  (module [StaticAnalysis]),
    - [tests/test_critical_fixes.py]   (module [CriticalFixes]),
    - [wsgi.py]                        (module [Wsgi]).

    Python [str] values are modelled as [string] (texts over 8-bit
    characters; the character classes of the code are modelled on the ASCII
    range), Python [int] as [Z], printing as a writer over a list of output
    events, exceptions as an error result, the file system and the current
    directory as an explicit [world]. *)

From stdpp Require Import gmap strings list.
From Stdlib Require Import String Ascii ZArith DecimalString Lia.

Open Scope string_scope.
Open Scope Z_scope.

(** ** Python strings *)

Module Py.

Definition dquote : ascii := "034"%char.
Definition newline : ascii := "010"%char.
Definition nl : string := String newline "".

(** [str(n)] for an [int]. *)
Definition str_int (n : Z) : string := NilZero.string_of_int (Z.to_int n).

(** [len(s)] *)
Definition len (s : string) : Z := Z.of_nat (String.length s).

(** [c * n] for a one-character string [c]. *)
Fixpoint str_repeat (c : string) (n : nat) : string :=
  match n with
  | O => ""
  | S n' => c +:+ str_repeat c n'
  end.

(** [s.startswith(p)] *)
Fixpoint startswith (s p : string) : bool :=
  match p, s with
  | "", _ => true
  | String _ _, "" => false
  | String a p', String b s' => if Ascii.eqb a b then startswith s' p' else false
  end.

(** [sub in s] *)
Fixpoint str_in (sub s : string) : bool :=
  startswith s sub ||
  match s with
  | "" => false
  | String _ s' => str_in sub s'
  end.

(** [x in l] for a list of strings (equality of elements, not substring). *)
Definition list_in (x : string) (l : list string) : bool :=
  existsb (String.eqb x) l.

(** [s.split('\n')]: the fields between the occurrences of the separator
    character; the empty text has the single field [""]. *)
Fixpoint split (sep : ascii) (s : string) : list string :=
  match s with
  | "" => [""]
  | String c s' =>
      if Ascii.eqb c sep then "" :: split sep s'
      else match split sep s' with
           | [] => [String c ""]
           | f :: fs => String c f :: fs
           end
  end.

(** [sep.join(l)] *)
Fixpoint join (sep : string) (l : list string) : string :=
  match l with
  | [] => ""
  | [x] => x
  | x :: xs => x +:+ sep +:+ join sep xs
  end.

(** [c.isspace()] on the ASCII range: tab, LF, VT, FF, CR, FS, GS, RS, US
    and the space. *)
Definition isspace (c : ascii) : bool :=
  let n := nat_of_ascii c in
  ((9 <=? n) && (n <=? 13) || (28 <=? n) && (n <=? 32))%nat.

Fixpoint lstrip (s : string) : string :=
  match s with
  | "" => ""
  | String c s' => if isspace c then lstrip s' else s
  end.

Fixpoint rstrip (s : string) : string :=
  match s with
  | "" => ""
  | String c s' =>
      match rstrip s' with
      | "" => if isspace c then "" else String c ""
      | r => String c r
      end
  end.

(** [s.strip()] *)
Definition strip (s : string) : string := rstrip (lstrip s).

(** [s.replace(old, new)] for a non-empty [old]: the occurrences of [old]
    are replaced from left to right, without overlap.  [skip] counts the
    characters of an occurrence that are still to be dropped. *)
Fixpoint replace_from (old new : string) (skip : nat) (s : string) : string :=
  match s with
  | "" => ""
  | String c s' =>
      match skip with
      | S k => replace_from old new k s'
      | O =>
          if startswith s old
          then new +:+ replace_from old new (String.length old - 1) s'
          else String c (replace_from old new 0 s')
      end
  end.

Definition replace (s old new : string) : string := replace_from old new 0 s.

(** [l[lo:hi]] for [0 <= lo]. *)
Definition slice {A} (l : list A) (lo hi : Z) : list A :=
  take (Z.to_nat (hi - lo)) (drop (Z.to_nat lo) l).

(** [enumerate(l, start)] *)
Fixpoint enumerate {A} (l : list A) (start : Z) : list (Z * A) :=
  match l with
  | [] => []
  | x :: xs => (start, x) :: enumerate xs (start + 1)
  end.

(** [sorted(l)] for strings: ascending in the code-point order. *)
Fixpoint insort (x : string) (l : list string) : list string :=
  match l with
  | [] => [x]
  | y :: ys => if String.leb x y then x :: l else y :: insort x ys
  end.

Definition sorted (l : list string) : list string := foldr insort [] l.

(** [repr(s)] of a string of printable ASCII characters: single quotes,
    unless the text has a single quote and no double quote; the backslash,
    the chosen quote and the control characters are escaped. *)
Definition has_char (c : ascii) (s : string) : bool :=
  existsb (Ascii.eqb c) (list_ascii_of_string s).

Definition hex_digit (n : nat) : ascii :=
  ascii_of_nat (if (n <? 10)%nat then 48 + n else 87 + n).

Definition repr_char (q c : ascii) : string :=
  let n := nat_of_ascii c in
  if Ascii.eqb c "\"%char then "\\"
  else if Ascii.eqb c q then String "\"%char (String q "")
  else if Ascii.eqb c newline then "\n"
  else if Ascii.eqb c "013"%char then "\r"
  else if Ascii.eqb c "009"%char then "\t"
  else if ((n <? 32) || (n =? 127))%nat
       then "\x" +:+ String (hex_digit (n / 16)) (String (hex_digit (n mod 16)) "")
  else String c "".

Fixpoint repr_body (q : ascii) (s : string) : string :=
  match s with
  | "" => ""
  | String c s' => repr_char q c +:+ repr_body q s'
  end.

Definition repr (s : string) : string :=
  let q := if has_char "'"%char s && negb (has_char dquote s)
           then dquote else "'"%char in
  String q (repr_body q s) +:+ String q "".

End Py.

(** ** The fragment of Python's [re] used by the checks

    A backtracking matcher in continuation-passing style.  The patterns of
    the code quantify single characters only ([.*?] and [\w+]), so the
    quantifiers carry a character set. *)

Module Re.

Inductive cset :=
| CChar (c : ascii)      (* a literal character, escaped or not *)
| CSet (cs : string)     (* [...] *)
| CDot                   (* . *)
| CWord.                 (* \w *)

Inductive regex :=
| RChar (c : cset)
| RSeq (r1 r2 : regex)
| RAlt (r1 r2 : regex)          (* r1|r2 *)
| RLazyStar (c : cset)          (* c*? *)
| RPlus (c : cset)              (* c+ *)
| RGroup (r : regex)            (* (r), the capture group 1 *)
| RLookahead (r : regex)        (* (?=r) *)
| REps.                         (* the empty pattern *)

(** A literal text as a pattern. *)
Fixpoint lit (s : string) : regex :=
  match s with
  | "" => REps
  | String c "" => RChar (CChar c)
  | String c s' => RSeq (RChar (CChar c)) (lit s')
  end.

(** The class of the word characters on the ASCII range: the letters,
    the digits and the underscore.  On a [str], Python also counts the
    letters and digits beyond ASCII, which the texts modelled here do not
    have. *)
Definition is_word (c : ascii) : bool :=
  let n := nat_of_ascii c in
  ((48 <=? n) && (n <=? 57) || (65 <=? n) && (n <=? 90)
   || (97 <=? n) && (n <=? 122) || (n =? 95))%nat.

(** [dotall] is the flag [re.DOTALL]. *)
Definition cset_mem (dotall : bool) (cs : cset) (c : ascii) : bool :=
  match cs with
  | CChar a => Ascii.eqb a c
  | CSet s => Py.has_char c s
  | CDot => dotall || negb (Ascii.eqb c Py.newline)
  | CWord => is_word c
  end.

(** The text of [s] consumed when [rest] remains. *)
Definition consumed (s rest : string) : string :=
  String.substring 0 (String.length s - String.length rest) s.

(** The state of a match: what remains of the text and the group 1. *)
Definition mstate : Type := string * option string.

Section Matcher.
Variable dotall : bool.

(** [c*?] tries the continuation first and takes one more character only
    when it fails. *)
Fixpoint lazy_star (c : cset) (g : option string)
    (k : string -> option string -> option mstate) (s : string) : option mstate :=
  match k s g with
  | Some m => Some m
  | None =>
      match s with
      | String a s' => if cset_mem dotall c a then lazy_star c g k s' else None
      | "" => None
      end
  end.

(** [c*] takes as many characters as it can and gives them back one by
    one. *)
Fixpoint greedy_star (c : cset) (g : option string)
    (k : string -> option string -> option mstate) (s : string) : option mstate :=
  match s with
  | String a s' =>
      if cset_mem dotall c a then
        match greedy_star c g k s' with
        | Some m => Some m
        | None => k s g
        end
      else k s g
  | "" => k s g
  end.

Fixpoint rmatch (r : regex) (s : string) (g : option string)
    (k : string -> option string -> option mstate) : option mstate :=
  match r with
  | RChar c =>
      match s with
      | String a s' => if cset_mem dotall c a then k s' g else None
      | "" => None
      end
  | RSeq r1 r2 => rmatch r1 s g (fun s' g' => rmatch r2 s' g' k)
  | RAlt r1 r2 =>
      match rmatch r1 s g k with
      | Some m => Some m
      | None => rmatch r2 s g k
      end
  | RLazyStar c => lazy_star c g k s
  | RPlus c =>
      match s with
      | String a s' => if cset_mem dotall c a then greedy_star c g k s' else None
      | "" => None
      end
  | RGroup r1 => rmatch r1 s g (fun s' _ => k s' (Some (consumed s s')))
  | RLookahead r1 =>
      match rmatch r1 s g (fun s' g' => Some (s', g')) with
      | Some (_, g') => k s g'
      | None => None
      end
  | REps => k s g
  end.

(** [pattern.match(s)]: a match at the start of [s]. *)
Definition match_here (r : regex) (s : string) : option mstate :=
  rmatch r s None (fun s' g => Some (s', g)).
End Matcher.

(** A match object: the start offset, [group(0)] and [group(1)]. *)
Record match_obj := { start : nat; group0 : string; group1 : option string }.

(** [re.search(r, s, flags)]: the match at the leftmost start. *)
Fixpoint search_from (dotall : bool) (r : regex) (pos : nat) (s : string)
    : option match_obj :=
  match match_here dotall r s with
  | Some (rest, g) =>
      Some {| start := pos; group0 := consumed s rest; group1 := g |}
  | None =>
      match s with
      | "" => None
      | String _ s' => search_from dotall r (S pos) s'
      end
  end.

Definition search (r : regex) (s : string) (dotall : bool) : option match_obj :=
  search_from dotall r 0 s.

(** [re.finditer(r, s)] for a pattern that matches no empty text: the
    matches from left to right, without overlap.  [skip] counts the
    characters of the last match that are still to be passed. *)
Fixpoint finditer_from (r : regex) (pos skip : nat) (s : string) : list match_obj :=
  match skip with
  | S k =>
      match s with
      | "" => []
      | String _ s' => finditer_from r (S pos) k s'
      end
  | O =>
      match match_here false r s with
      | Some (rest, g) =>
          let m := {| start := pos; group0 := consumed s rest; group1 := g |} in
          match s with
          | "" => [m]
          | String _ s' =>
              m :: finditer_from r (S pos) (String.length (group0 m) - 1) s'
          end
      | None =>
          match s with
          | "" => []
          | String _ s' => finditer_from r (S pos) 0 s'
          end
      end
  end.

Definition finditer (r : regex) (s : string) : list match_obj :=
  finditer_from r 0 0 s.

(** [re.findall(r, s)] for a pattern without groups: the matched texts. *)
Definition findall (r : regex) (s : string) : list string :=
  map group0 (finditer r s).

End Re.

(** ** Output, exceptions, and the file system *)

Module IO.

(** An instance of [Exception]; [str(e)] is its message. *)
Inductive exn := Exception (msg : string).

Definition str_exn (e : exn) : string :=
  match e with Exception msg => msg end.

Inductive result (A : Type) :=
| Return (a : A)
| Raise (e : exn).
Arguments Return {A} a.
Arguments Raise {A} e.

(** What a run writes: a [print(line)] on the standard output, or the
    trace of [traceback.print_exc()] on the standard error. *)
Inductive event :=
| Print (line : string)
| PrintExc (e : exn).

(** A computation writes events and returns or raises. *)
Definition io (A : Type) : Type := list event * result A.

Definition ret {A} (a : A) : io A := ([], Return a).
Definition raise {A} (e : exn) : io A := ([], Raise e).

Definition bind {A B} (m : io A) (f : A -> io B) : io B :=
  match m with
  | (out, Return a) => let '(out', r) := f a in ((out ++ out')%list, r)
  | (out, Raise e) => (out, Raise e)
  end.

(** [try: m  except Exception as e: h e] *)
Definition try_except {A} (m : io A) (h : exn -> io A) : io A :=
  match m with
  | (out, Return a) => (out, Return a)
  | (out, Raise e) => let '(out', r) := h e in ((out ++ out')%list, r)
  end.

Definition print (line : string) : io unit := ([Print line], Return tt).
Definition print_exc (e : exn) : io unit := ([PrintExc e], Return tt).

Module Notations.
Notation "x <- m ;; k" := (bind m (fun x => k))
  (at level 100, m at next level, right associativity).
Notation "m ;; k" := (bind m (fun _ => k))
  (at level 100, right associativity).
End Notations.
Import Notations.

(** [for x in l: body x] *)
Fixpoint for_each {A} (l : list A) (body : A -> io unit) : io unit :=
  match l with
  | [] => ret tt
  | x :: xs => body x ;; for_each xs body
  end.

(** A [for] loop that updates local variables [s]. *)
Fixpoint for_fold {A S} (l : list A) (s : S) (body : S -> A -> io S) : io S :=
  match l with
  | [] => ret s
  | x :: xs => s' <- body s x ;; for_fold xs s' body
  end.

(** A [for] loop whose body may [return]: [Some r] leaves the function. *)
Fixpoint for_return {A R} (l : list A) (body : A -> io (option R)) : io (option R) :=
  match l with
  | [] => ret None
  | x :: xs =>
      r <- body x ;;
      match r with
      | Some v => ret (Some v)
      | None => for_return xs body
      end
  end.

(** A file holds a text, or reading it raises. *)
Inductive file :=
| Text (content : string)
| Unreadable (e : exn).

(** The directories and the files by absolute path, and the current
    directory of the process. *)
Record world := {
  cwd : string;
  dirs : gset string;
  files : gmap string file
}.

Definition abspath (w : world) (path : string) : string :=
  if Py.startswith path "/" then path else cwd w +:+ "/" +:+ path.

Definition no_such_file (path : string) : exn :=
  Exception ("[Errno 2] No such file or directory: " +:+ Py.repr path).

(** [os.chdir(path)] *)
Definition chdir (w : world) (path : string) : io world :=
  if decide (abspath w path ∈ dirs w)
  then ret {| cwd := abspath w path; dirs := dirs w; files := files w |}
  else raise (no_such_file path).

(** [with open(path, 'r') as f: return f.read()] *)
Definition open_read (w : world) (path : string) : io string :=
  match files w !! abspath w path with
  | Some (Text content) => ret content
  | Some (Unreadable e) => raise e
  | None => raise (no_such_file path)
  end.

(** A [dict] from [str] to [bool], in insertion order. *)
Definition dict : Type := list (string * bool).

(** [d[k] = v] *)
Fixpoint dict_set (d : dict) (k : string) (v : bool) : dict :=
  match d with
  | [] => [(k, v)]
  | (k', v') :: d' =>
      if String.eqb k' k then (k', v) :: d' else (k', v') :: dict_set d' k v
  end.

(** [d.get(k)] *)
Fixpoint dict_get (d : dict) (k : string) : option bool :=
  match d with
  | [] => None
  | (k', v') :: d' => if String.eqb k' k then Some v' else dict_get d' k
  end.

Definition values (d : dict) : list bool := map snd d.
Definition items (d : dict) : list (string * bool) := d.

(** [sum(1 for x in l if p x)] *)
Definition count_if {A} (p : A -> bool) (l : list A) : Z :=
  Z.of_nat (List.length (List.filter p l)).

(** [len(l)] *)
Definition len {A} (l : list A) : Z := Z.of_nat (List.length l).

(** The terminal colour codes of the classes [C] and [Colors]. *)
Definition esc : string := String "027"%char "".
Definition GREEN : string := esc +:+ "[92m".
Definition RED : string := esc +:+ "[91m".
Definition YELLOW : string := esc +:+ "[93m".
Definition BLUE : string := esc +:+ "[94m".
Definition END : string := esc +:+ "[0m".
Definition BOLD : string := esc +:+ "[1m".

End IO.

(** ** tests/test_static_analysis.py *)

Module StaticAnalysis.
Import IO IO.Notations.

(** A function object: its [__name__] and what a call does. *)
Record pyfunc := { __name__ : string; call : world -> io bool }.

Definition test (name : string) : io unit :=
  print (Py.nl +:+ BLUE +:+ BOLD +:+ "▶ " +:+ name +:+ END).

Definition ok (msg : string) : io unit :=
  print ("  " +:+ GREEN +:+ "✓" +:+ END +:+ " " +:+ msg).

Definition fail (msg : string) : io unit :=
  print ("  " +:+ RED +:+ "✗" +:+ END +:+ " " +:+ msg).

Definition warn (msg : string) : io unit :=
  print ("  " +:+ YELLOW +:+ "⚠" +:+ END +:+ " " +:+ msg).

Definition info (msg : string) : io unit :=
  print ("  " +:+ BLUE +:+ "ℹ" +:+ END +:+ " " +:+ msg).

Definition read_file (w : world) (path : string) : io string :=
  open_read w path.

(** The character class of the patterns that holds the single and the
    double quote, written Q below. *)
Definition quote : Re.regex :=
  Re.RChar (Re.CSet (String "'"%char (String Py.dquote ""))).

Definition seq (rs : list Re.regex) : Re.regex := foldr Re.RSeq Re.REps rs.

(** Issue #1: no duplicate /verify_signature routes *)

(** The pattern [@app\.route\(Q\/verify_signature Q]. *)
Definition route_pattern : Re.regex :=
  seq [Re.lit "@app.route("; quote; Re.lit "/verify_signature"; quote].

Definition test_issue1_no_duplicate_routes (w : world) : io bool :=
  test "Issue #1: No duplicate /verify_signature routes" ;;
  source <- read_file w "app/app.py" ;;
  let matches := Re.findall route_pattern source in
  if len matches =? 0 then
    fail "No /verify_signature route found!" ;;
    ret false
  else if len matches =? 1 then
    ok "Only ONE /verify_signature route found (correct)" ;;
    ret true
  else
    fail ("Found " +:+ Py.str_int (len matches)
          +:+ " duplicate /verify_signature routes!") ;;
    ret false.

Definition test_issue1_no_legacy_function (w : world) : io bool :=
  test "Issue #1: verify_signature_legacy function deleted" ;;
  source <- read_file w "app/app.py" ;;
  if Py.str_in "def verify_signature_legacy(" source then
    fail "verify_signature_legacy function still exists (should be deleted)" ;;
    ret false
  else
    ok "verify_signature_legacy function deleted (correct)" ;;
    ret true.

(** The pattern
    [@app\.route\(Q\/verify_signature Q\).*?def verify_signature\(\):(.*?)(?=\n@app\.route|\ndef \w+\(|\nclass \w+)],
    searched with [re.DOTALL]. *)
Definition verify_signature_pattern : Re.regex :=
  seq [Re.lit "@app.route("; quote; Re.lit "/verify_signature"; quote;
       Re.lit ")"; Re.RLazyStar Re.CDot; Re.lit "def verify_signature():";
       Re.RGroup (Re.RLazyStar Re.CDot);
       Re.RLookahead
         (Re.RAlt (Re.lit (Py.nl +:+ "@app.route"))
         (Re.RAlt (seq [Re.lit (Py.nl +:+ "def "); Re.RPlus Re.CWord; Re.lit "("])
                  (seq [Re.lit (Py.nl +:+ "class "); Re.RPlus Re.CWord])))].

Definition test_issue1_finish_login_used (w : world) : io bool :=
  test "Issue #1: verify_signature uses _finish_login for OAuth cookies" ;;
  source <- read_file w "app/app.py" ;;
  match Re.search verify_signature_pattern source true with
  | None =>
      fail "Could not find verify_signature function" ;;
      ret false
  | Some m =>
      let func_body := default "" (Re.group1 m) in
      if Py.str_in "_finish_login" func_body then
        ok "verify_signature calls _finish_login (correct)" ;;
        ret true
      else
        warn "verify_signature may not call _finish_login" ;;
        ret true
  end.

(** Issue #2: OAuth storage uses PostgreSQL *)

Definition test_issue2_no_get_storage_calls (w : world) : io bool :=
  test "Issue #2: No get_storage() calls in OAuth code" ;;
  source <- read_file w "app/app.py" ;;
  let matches := Re.findall (Re.lit "get_storage()") source in
  if len matches =? 0 then
    ok "No get_storage() calls found (correct - using db_storage)" ;;
    ret true
  else
    fail ("Found " +:+ Py.str_int (len matches)
          +:+ " get_storage() calls (should use db_storage)") ;;
    let lines := Py.split Py.newline source in
    for_each (Py.enumerate lines 1) (fun '(i, line) =>
      if Py.str_in "get_storage()" line && (i <? 10) then
        info ("  Line " +:+ Py.str_int i +:+ ": " +:+ Py.strip line)
      else ret tt) ;;
    ret false.

Definition test_issue2_uses_store_oauth_client (w : world) : io bool :=
  test "Issue #2: Uses store_oauth_client() from db_storage" ;;
  source <- read_file w "app/app.py" ;;
  if Py.str_in "store_oauth_client(" source then
    ok "store_oauth_client() is used (PostgreSQL storage)" ;;
    ret true
  else
    fail "store_oauth_client() not found (should use db_storage)" ;;
    ret false.

Definition test_issue2_uses_get_oauth_client (w : world) : io bool :=
  test "Issue #2: Uses get_oauth_client() from db_storage" ;;
  source <- read_file w "app/app.py" ;;
  if Py.str_in "get_oauth_client(" source then
    ok "get_oauth_client() is used (PostgreSQL storage)" ;;
    ret true
  else
    fail "get_oauth_client() not found (should use db_storage)" ;;
    ret false.

Definition test_issue2_uses_oauth_code_functions (w : world) : io bool :=
  test "Issue #2: OAuth codes use db_storage functions" ;;
  source <- read_file w "app/app.py" ;;
  let checks := [("store_oauth_code", "store_oauth_code() is used");
                 ("get_oauth_code", "get_oauth_code() is used");
                 ("delete_oauth_code", "delete_oauth_code() is used")] in
  all_ok <- for_fold checks true (fun all_ok '(func, msg) =>
    if Py.str_in (func +:+ "(") source then
      ok msg ;; ret all_ok
    else
      fail (func +:+ "() not found") ;; ret false) ;;
  ret all_ok.

Definition test_issue2_deprecated_stores_marked (w : world) : io bool :=
  test "Issue #2: In-memory stores marked DEPRECATED" ;;
  source <- read_file w "app/app.py" ;;
  (if Py.str_in "CLIENT_STORE: Dict" source && Py.str_in "DEPRECATED" source then
     ok "CLIENT_STORE marked as DEPRECATED"
   else
     warn "CLIENT_STORE may not be clearly marked as DEPRECATED") ;;
  (if Py.str_in "AUTH_CODE_STORE: Dict" source && Py.str_in "DEPRECATED" source then
     ok "AUTH_CODE_STORE marked as DEPRECATED"
   else
     warn "AUTH_CODE_STORE may not be clearly marked as DEPRECATED") ;;
  ret true.

(** Issue #3: chat history uses Redis *)

Definition test_issue3_redis_functions_exist (w : world) : io bool :=
  test "Issue #3: Redis chat history functions exist" ;;
  source <- read_file w "app/app.py" ;;
  let funcs := ["def get_chat_history(";
                "def add_chat_message(";
                "def purge_old_chat_messages("] in
  all_ok <- for_fold funcs true (fun all_ok func =>
    let shown := Py.replace (Py.replace func "def " "") "(" "()" in
    if Py.str_in func source then
      ok (shown +:+ " exists") ;; ret all_ok
    else
      fail (shown +:+ " not found") ;; ret false) ;;
  ret all_ok.

Definition test_issue3_get_redis_import (w : world) : io bool :=
  test "Issue #3: get_redis imported from database" ;;
  source <- read_file w "app/app.py" ;;
  if Py.str_in "from app.database import" source && Py.str_in "get_redis" source then
    ok "get_redis imported from app.database" ;;
    ret true
  else
    fail "get_redis not imported from app.database" ;;
    ret false.

Definition test_issue3_redis_operations_used (w : world) : io bool :=
  test "Issue #3: Redis operations used (LPUSH, LRANGE, LTRIM)" ;;
  source <- read_file w "app/app.py" ;;
  let ops := [("lpush", "LPUSH"); ("lrange", "LRANGE"); ("ltrim", "LTRIM")] in
  all_ok <- for_fold ops true (fun all_ok '(op, name) =>
    if Py.str_in ("redis_client." +:+ op) source then
      ok ("Uses Redis " +:+ name +:+ " operation") ;; ret all_ok
    else
      warn ("May not use Redis " +:+ name +:+ " operation") ;; ret true) ;;
  ret all_ok.

(** The pattern
    [@socketio\.on\(Q message Q\)(.*?)(?=\n@socketio\.on|\n@app\.route|\ndef \w+\()],
    searched with [re.DOTALL]. *)
Definition message_handler_pattern : Re.regex :=
  seq [Re.lit "@socketio.on("; quote; Re.lit "message"; quote; Re.lit ")";
       Re.RGroup (Re.RLazyStar Re.CDot);
       Re.RLookahead
         (Re.RAlt (Re.lit (Py.nl +:+ "@socketio.on"))
         (Re.RAlt (Re.lit (Py.nl +:+ "@app.route"))
                  (seq [Re.lit (Py.nl +:+ "def "); Re.RPlus Re.CWord; Re.lit "("])))].

Definition test_issue3_add_chat_message_used (w : world) : io bool :=
  test "Issue #3: WebSocket handler uses add_chat_message()" ;;
  source <- read_file w "app/app.py" ;;
  match Re.search message_handler_pattern source true with
  | None =>
      warn "Could not find @socketio.on('message') handler" ;;
      ret true
  | Some m =>
      let handler_body := default "" (Re.group1 m) in
      if Py.str_in "add_chat_message(" handler_body then
        ok "Message handler uses add_chat_message() (correct)" ;;
        ret true
      else
        fail "Message handler does NOT use add_chat_message()" ;;
        ret false
  end.

(** The pattern
    [@app\.route\(Q\/chat Q\)(.*?)(?=\n@app\.route|\ndef \w+\()],
    searched with [re.DOTALL]. *)
Definition chat_route_pattern : Re.regex :=
  seq [Re.lit "@app.route("; quote; Re.lit "/chat"; quote; Re.lit ")";
       Re.RGroup (Re.RLazyStar Re.CDot);
       Re.RLookahead
         (Re.RAlt (Re.lit (Py.nl +:+ "@app.route"))
                  (seq [Re.lit (Py.nl +:+ "def "); Re.RPlus Re.CWord; Re.lit "("]))].

Definition test_issue3_get_chat_history_used (w : world) : io bool :=
  test "Issue #3: Uses get_chat_history() instead of direct access" ;;
  source <- read_file w "app/app.py" ;;
  match Re.search chat_route_pattern source true with
  | None =>
      warn "Could not find /chat route" ;;
      ret true
  | Some m =>
      let route_body := default "" (Re.group1 m) in
      if Py.str_in "get_chat_history()" route_body
         || Py.str_in "history=get_chat_history()" route_body then
        ok "/chat route uses get_chat_history() (correct)" ;;
        ret true
      else
        fail "/chat route does NOT use get_chat_history()" ;;
        ret false
  end.

Definition test_issue3_chat_history_deprecated (w : world) : io bool :=
  test "Issue #3: CHAT_HISTORY marked DEPRECATED" ;;
  source <- read_file w "app/app.py" ;;
  let lines := Py.split Py.newline source in
  r <- for_return (Py.enumerate lines 0) (fun '(i, line) =>
    if Py.str_in "CHAT_HISTORY: List" line then
      let context := Py.join Py.nl (Py.slice lines (Z.max 0 (i - 5)) i) in
      if Py.str_in "DEPRECATED" context then
        ok "CHAT_HISTORY marked as DEPRECATED (correct)" ;;
        ret (Some true)
      else ret None
    else ret None) ;;
  match r with
  | Some b => ret b
  | None =>
      fail "CHAT_HISTORY not clearly marked as DEPRECATED" ;;
      ret false
  end.

(** Main *)

Definition def (name : string) (f : world -> io bool) : pyfunc :=
  {| __name__ := name; call := f |}.

Definition tests : list pyfunc :=
  [ (* Issue #1 *)
    def "test_issue1_no_duplicate_routes" test_issue1_no_duplicate_routes;
    def "test_issue1_no_legacy_function" test_issue1_no_legacy_function;
    def "test_issue1_finish_login_used" test_issue1_finish_login_used;
    (* Issue #2 *)
    def "test_issue2_no_get_storage_calls" test_issue2_no_get_storage_calls;
    def "test_issue2_uses_store_oauth_client" test_issue2_uses_store_oauth_client;
    def "test_issue2_uses_get_oauth_client" test_issue2_uses_get_oauth_client;
    def "test_issue2_uses_oauth_code_functions" test_issue2_uses_oauth_code_functions;
    def "test_issue2_deprecated_stores_marked" test_issue2_deprecated_stores_marked;
    (* Issue #3 *)
    def "test_issue3_redis_functions_exist" test_issue3_redis_functions_exist;
    def "test_issue3_get_redis_import" test_issue3_get_redis_import;
    def "test_issue3_redis_operations_used" test_issue3_redis_operations_used;
    def "test_issue3_add_chat_message_used" test_issue3_add_chat_message_used;
    def "test_issue3_get_chat_history_used" test_issue3_get_chat_history_used;
    def "test_issue3_chat_history_deprecated" test_issue3_chat_history_deprecated ].

(** The loop of [main] over the catalog: each call is guarded by
    [try ... except Exception]. *)
Definition run_tests (tests : list pyfunc) (w : world) : io dict :=
  for_fold tests [] (fun results t =>
    try_except
      (r <- call t w ;;
       ret (dict_set results (__name__ t) r))
      (fun e =>
       fail ("Test crashed: " +:+ str_exn e) ;;
       print_exc e ;;
       ret (dict_set results (__name__ t) false))).

(** The line of the summary with the counts. *)
Definition result_line (passed total failed : Z) : string :=
  Py.nl +:+ BOLD +:+ "Result: " +:+ Py.str_int passed +:+ "/" +:+ Py.str_int total
  +:+ " passed, " +:+ Py.str_int failed +:+ "/" +:+ Py.str_int total
  +:+ " failed" +:+ END.

(** The summary of [main] and its return value. *)
Definition summary (results : dict) : io Z :=
  print (Py.nl +:+ BOLD +:+ Py.str_repeat "=" 70 +:+ END) ;;
  print (BOLD +:+ "Summary" +:+ END) ;;
  print (BOLD +:+ Py.str_repeat "=" 70 +:+ END) ;;
  let passed := count_if (fun r => r) (values results) in
  let total := len results in
  let failed := total - passed in
  for_each (items results) (fun '(name, result) =>
    let status := if (result : bool) then GREEN +:+ "PASS" +:+ END
                  else RED +:+ "FAIL" +:+ END in
    let clean_name := Py.replace (Py.replace name "test_issue" "Issue #") "_" " " in
    print (status +:+ " - " +:+ clean_name)) ;;
  print (result_line passed total failed) ;;
  if failed =? 0 then
    print (Py.nl +:+ GREEN +:+ BOLD +:+ "🎉 All tests passed! Critical fixes verified." +:+ END) ;;
    ret 0
  else
    print (Py.nl +:+ RED +:+ BOLD +:+ "⚠️  " +:+ Py.str_int failed +:+ " test(s) failed." +:+ END) ;;
    ret 1.

Definition project_root : string := "/home/user/The-Universal-Bitcoin-Identity-Layer".

Definition main (w : world) : io Z :=
  print (BOLD +:+ Py.str_repeat "=" 70 +:+ END) ;;
  print (BOLD +:+ "HODLXXI Static Analysis Tests (Issues #1, #2, #3)" +:+ END) ;;
  print (BOLD +:+ "No dependencies required - analyzes source code directly" +:+ END) ;;
  print (BOLD +:+ Py.str_repeat "=" 70 +:+ END) ;;
  w <- chdir w project_root ;;
  results <- run_tests tests w ;;
  summary results.

End StaticAnalysis.

(** ** tests/test_critical_fixes.py *)

Module CriticalFixes.
Import IO IO.Notations.

(** A rule of the route table of the application (werkzeug's [Rule]):
    [str(rule)] is the path [rule]. *)
Record url_rule := {
  endpoint : string;
  methods : gset string;
  rule : string
}.

(** The application object [app.app]: [flask_app.url_map.iter_rules()]. *)
Record flask_app := { iter_rules : result (list url_rule) }.

(** The live module [app.app] as the checks inspect it:
    [inspect.getmembers] gives the names in order, each with
    [inspect.isfunction] of its object; [getsource] is
    [inspect.getsource(app_module.<dotted name>)], and raises when the
    attribute or its source is missing. *)
Record app_module := {
  getmembers : list (string * bool);
  hasattr : string -> bool;
  getsource : string -> result string
}.

(** What a run of the checks meets: the files, and the outcome of each
    import statement. *)
Record env := {
  fs : world;
  import_app : result flask_app;        (* from app import app as flask_app *)
  import_app_app : result app_module;   (* import app.app as app_module *)
  import_db_storage : result unit       (* from app.db_storage import ... *)
}.

Definition lift {A} (r : result A) : io A := ([], r).

Definition print_test (name : string) : io unit :=
  print (Py.nl +:+ BLUE +:+ BOLD +:+ "▶ " +:+ name +:+ END).

Definition print_pass (msg : string) : io unit :=
  print ("  " +:+ GREEN +:+ "✓" +:+ END +:+ " " +:+ msg).

Definition print_fail (msg : string) : io unit :=
  print ("  " +:+ RED +:+ "✗" +:+ END +:+ " " +:+ msg).

Definition print_warn (msg : string) : io unit :=
  print ("  " +:+ YELLOW +:+ "⚠" +:+ END +:+ " " +:+ msg).

Definition print_info (msg : string) : io unit :=
  print ("  " +:+ BLUE +:+ "ℹ" +:+ END +:+ " " +:+ msg).

(** The handler [except Exception as e] shared by the checks. *)
Definition on_error (what : string) (e : exn) : io bool :=
  print_fail (what +:+ ": " +:+ str_exn e) ;;
  print_exc e ;;
  ret false.

(** Issue #1 *)

(** An entry of [routes]: the dict with the keys [endpoint], [methods]
    and [path]. *)
Record route := { r_endpoint : string; r_methods : string; r_path : string }.

(** [str(route)] of that dict. *)
Definition str_route (r : route) : string :=
  "{'endpoint': " +:+ Py.repr (r_endpoint r)
  +:+ ", 'methods': " +:+ Py.repr (r_methods r)
  +:+ ", 'path': " +:+ Py.repr (r_path r) +:+ "}".

Definition routes_of (rules : list url_rule) : list route :=
  flat_map (fun rl =>
    if negb (String.eqb (endpoint rl) "static") then
      [{| r_endpoint := endpoint rl;
          r_methods := Py.join "," (Py.sorted (elements (methods rl ∖ {["HEAD"; "OPTIONS"]})));
          r_path := rule rl |}]
    else []) rules.

Definition test_no_duplicate_verify_signature (v : env) : io bool :=
  print_test "Issue #1: No duplicate /verify_signature routes" ;;
  try_except
    (flask_app <- lift (import_app v) ;;
     rules <- lift (iter_rules flask_app) ;;
     let routes := routes_of rules in
     let verify_routes :=
       List.filter (fun r => String.eqb (r_path r) "/verify_signature") routes in
     match verify_routes with
     | [] =>
         print_fail "No /verify_signature route found!" ;;
         ret false
     | [r0] =>
         print_pass ("Only ONE /verify_signature route exists: " +:+ str_route r0) ;;
         if Py.str_in "POST" (r_methods r0) then
           print_pass "Route accepts POST method" ;;
           ret true
         else
           print_fail ("Route does not accept POST: " +:+ r_methods r0) ;;
           ret false
     | _ =>
         print_fail ("Found " +:+ Py.str_int (len verify_routes)
                     +:+ " duplicate /verify_signature routes:") ;;
         for_each verify_routes (fun r =>
           print_info ("  - " +:+ r_endpoint r +:+ " " +:+ r_methods r
                       +:+ " " +:+ r_path r)) ;;
         ret false
     end)
    (on_error "Error testing routes").

(** [str(l)] of a list of strings. *)
Definition str_list (l : list string) : string :=
  "[" +:+ Py.join ", " (map Py.repr l) +:+ "]".

Definition test_verify_signature_function (v : env) : io bool :=
  print_test "Issue #1: Verify signature function is unique" ;;
  try_except
    (app_module <- lift (import_app_app v) ;;
     let verify_funcs :=
       map fst (List.filter (fun '(name, isfunction) =>
                  isfunction && Py.str_in "verify_signature" name)
                (getmembers app_module)) in
     print_info ("Functions matching 'verify_signature': " +:+ str_list verify_funcs) ;;
     if Py.list_in "verify_signature" verify_funcs then
       print_pass "verify_signature function exists" ;;
       if Py.list_in "verify_signature_legacy" verify_funcs then
         print_fail "verify_signature_legacy function still exists (should be deleted)" ;;
         ret false
       else
         print_pass "verify_signature_legacy function deleted (correct)" ;;
         ret true
     else
       print_fail "verify_signature function not found" ;;
       ret false)
    (on_error "Error checking functions").

(** Issue #2 *)

Definition test_oauth_storage_postgresql (v : env) : io bool :=
  print_test "Issue #2: OAuth storage uses PostgreSQL" ;;
  try_except
    (app_module <- lift (import_app_app v) ;;
     lift (import_db_storage v) ;;
     source <- lift (getsource app_module "ClientManager.register_client") ;;
     if Py.str_in "store_oauth_client" source then
       print_pass "ClientManager.register_client uses store_oauth_client() (PostgreSQL)" ;;
       if Py.str_in "get_storage()" source then
         print_fail "ClientManager.register_client still uses get_storage() (in-memory)" ;;
         ret false
       else
         print_pass "ClientManager.register_client does NOT use get_storage() (correct)" ;;
         source <- lift (getsource app_module "ClientManager.authenticate_client") ;;
         if Py.str_in "get_oauth_client" source then
           print_pass "ClientManager.authenticate_client uses get_oauth_client() (PostgreSQL)" ;;
           if Py.str_in "get_storage()" source then
             print_fail "ClientManager.authenticate_client still uses get_storage()" ;;
             ret false
           else
             print_pass "ClientManager.authenticate_client does NOT use get_storage() (correct)" ;;
             ret true
         else
           print_fail "ClientManager.authenticate_client does NOT use get_oauth_client()" ;;
           ret false
     else
       print_fail "ClientManager.register_client does NOT use store_oauth_client()" ;;
       ret false)
    (on_error "Error testing OAuth storage").

Definition test_oauth_code_storage (v : env) : io bool :=
  print_test "Issue #2: OAuth authorization codes use PostgreSQL" ;;
  try_except
    (app_module <- lift (import_app_app v) ;;
     source <- lift (getsource app_module "OAuthServer.authorization_endpoint") ;;
     if Py.str_in "store_oauth_code" source then
       print_pass "OAuthServer.authorization_endpoint uses store_oauth_code() (PostgreSQL)" ;;
       if Py.str_in "get_storage()" source then
         print_fail "OAuthServer.authorization_endpoint still uses get_storage()" ;;
         ret false
       else
         print_pass "OAuthServer.authorization_endpoint does NOT use get_storage() (correct)" ;;
         source <- lift (getsource app_module "OAuthServer._handle_code_grant") ;;
         if Py.str_in "get_oauth_code" source then
           print_pass "OAuthServer._handle_code_grant uses get_oauth_code() (PostgreSQL)" ;;
           if Py.str_in "delete_oauth_code" source then
             print_pass "OAuthServer._handle_code_grant uses delete_oauth_code() (PostgreSQL)" ;;
             ret true
           else
             print_fail "OAuthServer._handle_code_grant does NOT use delete_oauth_code()" ;;
             ret false
         else
           print_fail "OAuthServer._handle_code_grant does NOT use get_oauth_code()" ;;
           ret false
     else
       print_fail "OAuthServer.authorization_endpoint does NOT use store_oauth_code()" ;;
       ret false)
    (on_error "Error testing OAuth code storage").

(** Issue #3 *)

Definition test_chat_history_redis_functions (v : env) : io bool :=
  print_test "Issue #3: Chat history Redis functions exist" ;;
  try_except
    (app_module <- lift (import_app_app v) ;;
     let funcs_required :=
       ["get_chat_history"; "add_chat_message"; "purge_old_chat_messages"] in
     missing <- for_return funcs_required (fun func_name =>
       if hasattr app_module func_name then
         print_pass (func_name +:+ "() function exists") ;; ret None
       else
         print_fail (func_name +:+ "() function NOT found") ;; ret (Some false)) ;;
     match missing with
     | Some b => ret b
     | None =>
         source <- lift (getsource app_module "get_chat_history") ;;
         if Py.str_in "get_redis()" source then
           print_pass "get_chat_history() uses get_redis()" ;;
           (if Py.str_in "redis_client.lrange" source then
              print_pass "get_chat_history() uses Redis LRANGE (correct)"
            else
              print_warn "get_chat_history() may not use Redis LRANGE") ;;
           source <- lift (getsource app_module "add_chat_message") ;;
           if Py.str_in "get_redis()" source then
             print_pass "add_chat_message() uses get_redis()" ;;
             (if Py.str_in "redis_client.lpush" source then
                print_pass "add_chat_message() uses Redis LPUSH (correct)"
              else
                print_warn "add_chat_message() may not use Redis LPUSH") ;;
             (if Py.str_in "redis_client.ltrim" source then
                print_pass "add_chat_message() uses Redis LTRIM for size limit (correct)"
              else
                print_warn "add_chat_message() may not use Redis LTRIM") ;;
             ret true
           else
             print_fail "add_chat_message() does NOT use get_redis()" ;;
             ret false
         else
           print_fail "get_chat_history() does NOT use get_redis()" ;;
           ret false
     end)
    (on_error "Error testing chat history functions").

(** [not x] for a variable that holds [None], [True] or [False]. *)
Definition py_not (x : option bool) : bool :=
  match x with
  | Some true => false
  | _ => true
  end.

Definition test_chat_message_handler (v : env) : io bool :=
  print_test "Issue #3: WebSocket handler uses new chat functions" ;;
  try_except
    (lift (import_app v) ;;
     lift (import_app_app v) ;;
     source <- open_read (fs v) "app/app.py" ;;
     if Py.str_in "add_chat_message(" source then
       print_pass "WebSocket handler uses add_chat_message() (correct)" ;;
       let lines := Py.split Py.newline source in
       scan <-
         for_fold (Py.enumerate lines 1) ([], None) (fun '(bad_appends, in_function) '(i, line) =>
           let in_function :=
             if Py.str_in "def add_chat_message" line
                || Py.str_in "def purge_old_chat_messages" line then Some true
             else if Py.startswith line "def " || Py.startswith line "class " then Some false
             else in_function in
           if Py.str_in "CHAT_HISTORY.append" line && py_not in_function
              && negb (Py.str_in "# Fallback" line) then
             if negb (Py.list_in "add_chat_message" (Py.slice lines (Z.max 0 (i - 10)) i)) then
               ret ((bad_appends ++ [(i, Py.strip line)])%list, in_function)
             else ret (bad_appends, in_function)
           else ret (bad_appends, in_function)) ;;
       let bad_appends : list (Z * string) := fst scan in
       (match bad_appends with
        | _ :: _ =>
            print_warn ("Found " +:+ Py.str_int (len bad_appends)
                        +:+ " direct CHAT_HISTORY.append calls outside helper functions:") ;;
            for_each (Py.slice bad_appends 0 3) (fun '(line_num, line) =>
              print_info ("  Line " +:+ Py.str_int line_num +:+ ": " +:+ line))
        | [] =>
            print_pass "No direct CHAT_HISTORY.append calls outside helper functions (correct)"
        end) ;;
       ret true
     else
       print_fail "WebSocket handler does NOT use add_chat_message()" ;;
       ret false)
    (on_error "Error testing message handler").

Definition test_chat_history_deprecated (v : env) : io bool :=
  print_test "Issue #3: CHAT_HISTORY marked as DEPRECATED" ;;
  try_except
    (source <- open_read (fs v) "app/app.py" ;;
     found <-
       (if Py.str_in "DEPRECATED" source && Py.str_in "CHAT_HISTORY" source then
          let lines := Py.split Py.newline source in
          for_return (Py.enumerate lines 0) (fun '(i, line) =>
            if Py.str_in "CHAT_HISTORY: List" line then
              let context := Py.join Py.nl (Py.slice lines (Z.max 0 (i - 5)) i) in
              if Py.str_in "DEPRECATED" context then
                print_pass "CHAT_HISTORY is marked as DEPRECATED (correct)" ;;
                ret (Some true)
              else ret None
            else ret None)
        else ret None) ;;
     match found with
     | Some b => ret b
     | None =>
         print_warn "CHAT_HISTORY may not be clearly marked as DEPRECATED" ;;
         ret true
     end)
    (fun e =>
     print_fail ("Error checking DEPRECATED marking: " +:+ str_exn e) ;;
     ret false).

(** Main test runner *)

Definition all_tests : list (string * (env -> io bool)) :=
  [ (* Issue #1 tests *)
    ("Issue #1: No duplicate routes", test_no_duplicate_verify_signature);
    ("Issue #1: Function uniqueness", test_verify_signature_function);
    (* Issue #2 tests *)
    ("Issue #2: OAuth client storage", test_oauth_storage_postgresql);
    ("Issue #2: OAuth code storage", test_oauth_code_storage);
    (* Issue #3 tests *)
    ("Issue #3: Redis functions", test_chat_history_redis_functions);
    ("Issue #3: Message handler", test_chat_message_handler);
    ("Issue #3: Deprecation marking", test_chat_history_deprecated) ].

(** The loop of [main] over the catalog. *)
Definition run_tests (all_tests : list (string * (env -> io bool))) (v : env)
    : io dict :=
  for_fold all_tests [] (fun results '(test_name, test_func) =>
    try_except
      (r <- test_func v ;;
       ret (dict_set results test_name r))
      (fun e =>
       print_fail ("Test crashed: " +:+ str_exn e) ;;
       print_exc e ;;
       ret (dict_set results test_name false))).

(** The line of the summary with the counts. *)
Definition total_line (passed total failed : Z) : string :=
  Py.nl +:+ BOLD +:+ "Total: " +:+ Py.str_int passed +:+ "/" +:+ Py.str_int total
  +:+ " passed, " +:+ Py.str_int failed +:+ "/" +:+ Py.str_int total
  +:+ " failed" +:+ END.

(** The summary of [main] and its return value. *)
Definition summary (results : dict) : io Z :=
  print (Py.nl +:+ BOLD +:+ Py.str_repeat "=" 70 +:+ END) ;;
  print (BOLD +:+ "Test Summary" +:+ END) ;;
  print (BOLD +:+ Py.str_repeat "=" 70 +:+ END) ;;
  let passed := count_if (fun r => r) (values results) in
  let failed := count_if (fun r => negb r) (values results) in
  let total := len results in
  for_each (items results) (fun '(test_name, result) =>
    let status := if (result : bool) then GREEN +:+ "PASS" +:+ END
                  else RED +:+ "FAIL" +:+ END in
    print (status +:+ " - " +:+ test_name)) ;;
  print (total_line passed total failed) ;;
  if failed =? 0 then
    print (Py.nl +:+ GREEN +:+ BOLD
           +:+ "🎉 All tests passed! Critical fixes are working correctly." +:+ END) ;;
    ret 0
  else
    print (Py.nl +:+ RED +:+ BOLD +:+ "⚠️  " +:+ Py.str_int failed
           +:+ " test(s) failed. Please review the output above." +:+ END) ;;
    ret 1.

Definition main (v : env) : io Z :=
  print (BOLD +:+ Py.str_repeat "=" 70 +:+ END) ;;
  print (BOLD +:+ "HODLXXI Critical Fixes Test Suite" +:+ END) ;;
  print (BOLD +:+ "Testing Issues #1, #2, #3" +:+ END) ;;
  print (BOLD +:+ Py.str_repeat "=" 70 +:+ END) ;;
  results <- run_tests all_tests v ;;
  summary results.

End CriticalFixes.

(** ** wsgi.py *)

Module Wsgi.
Import IO.

(** An object of the interpreter, by identity. *)
Definition obj : Type := positive.

(** What loading the module meets: its [__name__], the directory of its
    file, [sys.path], the module objects [os] and [sys], the outcome of
    [from app.app import app] (the application object, or the exception of
    the import), and the outcome of [app.run()] when the module is run as a
    script. *)
Record loader := {
  module_name : string;
  dirname : string;
  sys_path : list string;
  os_module : obj;
  sys_module : obj;
  import_app : result obj;
  app_run : obj -> result unit
}.

(** A name of the module is bound to an object or to a text. *)
Inductive value :=
| VObj (o : obj)
| VStr (s : string).

(** The state after the module body: [sys.path] and the names of the
    module. *)
Record module_state := {
  path : list string;
  globals : gmap string value
}.

(** The value of a name, or [NameError]. *)
Definition name (g : gmap string value) (x : string) : result value :=
  match g !! x with
  | Some v => Return v
  | None => Raise (Exception ("name '" +:+ x +:+ "' is not defined"))
  end.

(** The body of the module, statement by statement. *)
Definition load (l : loader) : result module_state :=
  let g : gmap string value := ∅ in
  let g := <["os" := VObj (os_module l)]> g in
  let g := <["sys" := VObj (sys_module l)]> g in
  let BASE := dirname l in
  let g := <["BASE" := VStr BASE]> g in
  let p := if negb (Py.list_in BASE (sys_path l)) then BASE :: sys_path l
           else sys_path l in
  match import_app l with
  | Raise e => Raise e
  | Return a =>
      let g := <["app" := VObj a]> g in
      match (if String.eqb (module_name l) "__main__" then app_run l a
             else Return tt) with
      | Raise e => Raise e
      | Return _ =>
          match name g "app" with
          | Raise e => Raise e
          | Return v =>
              let g := <["application" := v]> g in
              Return {| path := p; globals := g |}
          end
      end
  end.

End Wsgi.

(** ** Verdicts and the run of a catalog *)

Module Harness.
Import IO IO.Notations.

(** The verdicts of the specification.  The code has no such type: a check
    returns a [bool] and prints its warnings. *)
Inductive verdict := PASS | WARN | FAIL.

(** A line printed by [warn] or [print_warn]. *)
Definition is_warning (e : event) : bool :=
  match e with
  | Print line => Py.startswith line ("  " +:+ YELLOW +:+ "⚠" +:+ END +:+ " ")
  | PrintExc _ => false
  end.

(** What the loop of [main] records for a call: its value, or [False] when
    it raised. *)
Definition outcome (r : io bool) : bool :=
  match snd r with
  | Return b => b
  | Raise _ => false
  end.

(** [FAIL] when [False] is recorded; otherwise [WARN] when the check
    printed a warning, and [PASS] when it did not. *)
Definition verdict_of (r : io bool) : verdict :=
  if outcome r then
    if existsb is_warning (fst r) then WARN else PASS
  else FAIL.

Definition is_fail (v : verdict) : bool :=
  match v with FAIL => true | _ => false end.
Definition is_pass (v : verdict) : bool :=
  match v with PASS => true | _ => false end.
Definition is_warn (v : verdict) : bool :=
  match v with WARN => true | _ => false end.

(** What the handler of the loop prints for an exception. *)
Definition crash_report (e : exn) : list event :=
  [Print ("  " +:+ RED +:+ "✗" +:+ END +:+ " " +:+ ("Test crashed: " +:+ str_exn e));
   PrintExc e].

(** What a guarded call writes: the output of the check and, when it
    raised, the report of the handler. *)
Definition rule_output (r : io bool) : list event :=
  (fst r ++ match snd r with
            | Return _ => []
            | Raise e => crash_report e
            end)%list.

(** A catalog at a given input: the key of each check and its call. *)
Definition catalog : Type := list (string * io bool).

(** The guarded call of the loop of both [main] functions. *)
Definition guarded (results : dict) (c : string * io bool) : io dict :=
  let '(name, r) := c in
  try_except
    (b <- r ;;
     ret (dict_set results name b))
    (fun e =>
     print ("  " +:+ RED +:+ "✗" +:+ END +:+ " " +:+ ("Test crashed: " +:+ str_exn e)) ;;
     print_exc e ;;
     ret (dict_set results name false)).

(** One entry per check, in the order of the catalog. *)
Definition recorded (cat : catalog) : dict :=
  map (fun c => (fst c, outcome (snd c))) cat.

(** The output of the loop: each check in turn. *)
Definition catalog_output (cat : catalog) : list event :=
  List.concat (map (fun c => rule_output (snd c)) cat).

Definition count_verdict (p : verdict -> bool) (cat : catalog) : Z :=
  count_if (fun c => p (verdict_of (snd c))) cat.

Definition static_catalog (tests : list StaticAnalysis.pyfunc) (w : world) : catalog :=
  map (fun t => (StaticAnalysis.__name__ t, StaticAnalysis.call t w)) tests.

Definition critical_catalog (all_tests : list (string * (CriticalFixes.env -> io bool)))
    (v : CriticalFixes.env) : catalog :=
  map (fun t => (fst t, snd t v)) all_tests.

(** The loop of either script over a catalog, at an input. *)
Inductive harness_run :=
| StaticRun (tests : list StaticAnalysis.pyfunc) (w : world)
| CriticalRun (all_tests : list (string * (CriticalFixes.env -> io bool)))
    (v : CriticalFixes.env).

Definition catalog_of (h : harness_run) : catalog :=
  match h with
  | StaticRun tests w => static_catalog tests w
  | CriticalRun all_tests v => critical_catalog all_tests v
  end.

Definition run_tests (h : harness_run) : io dict :=
  match h with
  | StaticRun tests w => StaticAnalysis.run_tests tests w
  | CriticalRun all_tests v => CriticalFixes.run_tests all_tests v
  end.

Definition summary (h : harness_run) (results : dict) : io Z :=
  match h with
  | StaticRun _ _ => StaticAnalysis.summary results
  | CriticalRun _ _ => CriticalFixes.summary results
  end.

Definition counts_line (h : harness_run) (passed total failed : Z) : string :=
  match h with
  | StaticRun _ _ => StaticAnalysis.result_line passed total failed
  | CriticalRun _ _ => CriticalFixes.total_line passed total failed
  end.

(** The world after [os.chdir(project_root)]. *)
Definition in_root (w : world) : world :=
  {| cwd := StaticAnalysis.project_root; dirs := dirs w; files := files w |}.

(** A run of either script. *)
Inductive invocation :=
| StaticMain (w : world)
| CriticalMain (v : CriticalFixes.env).

Definition main (i : invocation) : io Z :=
  match i with
  | StaticMain w => StaticAnalysis.main w
  | CriticalMain v => CriticalFixes.main v
  end.

(** The loop that [main] runs. *)
Definition loop_of (i : invocation) : harness_run :=
  match i with
  | StaticMain w => StaticRun StaticAnalysis.tests (in_root w)
  | CriticalMain v => CriticalRun CriticalFixes.all_tests v
  end.

(** [main] gets to its catalog: the static script changes to the project
    root first. *)
Definition reaches_catalog (i : invocation) : Prop :=
  match i with
  | StaticMain w => StaticAnalysis.project_root ∈ dirs w
  | CriticalMain _ => True
  end.

(** The lines that [main] prints before the catalog. *)
Definition banner (i : invocation) : list event :=
  match i with
  | StaticMain _ =>
      [Print (BOLD +:+ Py.str_repeat "=" 70 +:+ END);
       Print (BOLD +:+ "HODLXXI Static Analysis Tests (Issues #1, #2, #3)" +:+ END);
       Print (BOLD +:+ "No dependencies required - analyzes source code directly" +:+ END);
       Print (BOLD +:+ Py.str_repeat "=" 70 +:+ END)]
  | CriticalMain _ =>
      [Print (BOLD +:+ Py.str_repeat "=" 70 +:+ END);
       Print (BOLD +:+ "HODLXXI Critical Fixes Test Suite" +:+ END);
       Print (BOLD +:+ "Testing Issues #1, #2, #3" +:+ END);
       Print (BOLD +:+ Py.str_repeat "=" 70 +:+ END)]
  end.

(** The entry of [routes] that the route check makes of a rule. *)
Definition to_route (rl : CriticalFixes.url_rule) : CriticalFixes.route :=
  {| CriticalFixes.r_endpoint := CriticalFixes.endpoint rl;
     CriticalFixes.r_methods :=
       Py.join "," (Py.sorted (elements (CriticalFixes.methods rl ∖ {["HEAD"; "OPTIONS"]})));
     CriticalFixes.r_path := CriticalFixes.rule rl |}.

(** The rules of the route table for the path /verify_signature, without
    the endpoint [static] of the framework. *)
Definition verify_entries (rules : list CriticalFixes.url_rule)
    : list CriticalFixes.url_rule :=
  List.filter (fun rl => negb (String.eqb (CriticalFixes.endpoint rl) "static")
                         && String.eqb (CriticalFixes.rule rl) "/verify_signature")
              rules.

(** [line] is among the printed lines. *)
Definition printed (line : string) (out : list event) : bool :=
  existsb (fun e => match e with
                    | Print l => String.eqb l line
                    | PrintExc _ => false
                    end) out.

End Harness.

(** ** Concrete inputs *)

Module Examples.
Import IO Harness.

(** A machine with the project root and, when [src] is given, the file
    [app/app.py] under it. *)
Definition world_with (src : option string) : world :=
  {| cwd := "/";
     dirs := {[ StaticAnalysis.project_root ]};
     files := match src with
              | Some s => {[ StaticAnalysis.project_root +:+ "/app/app.py" := Text s ]}
              | None => ∅
              end |}.

(** The project root is there, [app/app.py] is not. *)
Definition no_app_py : world := world_with None.

(** Two route declarations for /verify_signature, on lines 1 and 4. *)
Definition two_routes_a : string :=
  Py.join Py.nl
    ["@app.route('/verify_signature', methods=['POST'])";
     "def verify_signature():";
     "    pass";
     "@app.route('/verify_signature', methods=['GET'])";
     "def verify_signature_legacy():";
     "    pass"].

(** Two route declarations for /verify_signature, on lines 2 and 7. *)
Definition two_routes_b : string :=
  Py.join Py.nl
    ["import os";
     "@app.route('/verify_signature')";
     "def first():";
     "    pass";
     "";
     "";
     "@app.route('/verify_signature')";
     "def second():";
     "    pass"].

(** The handler of /verify_signature is the last declaration of the
    file. *)
Definition handler_last : string :=
  Py.join Py.nl
    ["import os";
     "def helper():";
     "    pass";
     "@app.route('/verify_signature')";
     "def verify_signature():";
     "    return _finish_login(pubkey)";
     ""].

(** The same handler, followed by another function. *)
Definition handler_followed : string :=
  Py.join Py.nl
    ["import os";
     "def helper():";
     "    pass";
     "@app.route('/verify_signature')";
     "def verify_signature():";
     "    return _finish_login(pubkey)";
     "def after():";
     "    pass";
     ""].

(** The only call of get_storage() is on line 10. *)
Definition get_storage_on_line_10 : string :=
  Py.join Py.nl
    ["import os";
     "import sys";
     "import json";
     "import time";
     "import redis";
     "import flask";
     "import logging";
     "import hashlib";
     "import secrets";
     "storage = get_storage()"].

(** Four calls of get_storage(), on the lines 1 to 4. *)
Definition get_storage_four_times : string :=
  Py.join Py.nl
    ["a = get_storage()";
     "b = get_storage()";
     "c = get_storage()";
     "d = get_storage()"].

(** An application on which no check of the static script fails: the
    in-memory stores carry no DEPRECATED mark, and there is neither a
    message handler nor a /chat route. *)
Definition app_with_warnings : string :=
  Py.join Py.nl
    ["from app.database import get_redis";
     "# DEPRECATED: kept as a fallback, use Redis";
     "CHAT_HISTORY: List[dict] = []";
     "def get_chat_history():";
     "    return redis_client.lrange(KEY, 0, -1)";
     "def add_chat_message(m):";
     "    redis_client.lpush(KEY, m)";
     "    redis_client.ltrim(KEY, 0, 99)";
     "def purge_old_chat_messages():";
     "    pass";
     "def register(c):";
     "    store_oauth_client(c)";
     "    get_oauth_client(c)";
     "    store_oauth_code(c)";
     "    get_oauth_code(c)";
     "    delete_oauth_code(c)";
     "@app.route('/verify_signature')";
     "def verify_signature():";
     "    return _finish_login(pubkey)";
     "def last():";
     "    pass"].

(** Route tables. *)
Definition static_rule : CriticalFixes.url_rule :=
  {| CriticalFixes.endpoint := "static";
     CriticalFixes.methods := {["GET"; "HEAD"; "OPTIONS"]};
     CriticalFixes.rule := "/static/<path:filename>" |}.

Definition post_rule : CriticalFixes.url_rule :=
  {| CriticalFixes.endpoint := "verify_signature";
     CriticalFixes.methods := {["POST"; "OPTIONS"]};
     CriticalFixes.rule := "/verify_signature" |}.

Definition get_rule : CriticalFixes.url_rule :=
  {| CriticalFixes.endpoint := "verify_signature_legacy";
     CriticalFixes.methods := {["GET"; "HEAD"; "OPTIONS"]};
     CriticalFixes.rule := "/verify_signature" |}.

(** The module [app.app] with nothing in it. *)
Definition empty_module : CriticalFixes.app_module :=
  {| CriticalFixes.getmembers := [];
     CriticalFixes.hasattr := fun _ => false;
     CriticalFixes.getsource := fun _ => Raise (Exception "could not get source code") |}.

(** An application with the route table [rules]. *)
Definition env_with (rules : list CriticalFixes.url_rule) : CriticalFixes.env :=
  {| CriticalFixes.fs := no_app_py;
     CriticalFixes.import_app := Return {| CriticalFixes.iter_rules := Return rules |};
     CriticalFixes.import_app_app := Return empty_module;
     CriticalFixes.import_db_storage := Return tt |}.

(** The module [wsgi] imported by a process manager. *)
Definition imported_wsgi : Wsgi.loader :=
  {| Wsgi.module_name := "wsgi";
     Wsgi.dirname := "/srv/chat";
     Wsgi.sys_path := ["/usr/lib/python3"];
     Wsgi.os_module := 1%positive;
     Wsgi.sys_module := 2%positive;
     Wsgi.import_app := Return 3%positive;
     Wsgi.app_run := fun _ => Return tt |}.

End Examples.

(** ** Vocabulary for the properties of the checks *)

Module Cover.
Import IO.

(** [s] without its prefix [p], when it starts with [p]. *)
Fixpoint strip_prefix (p s : string) : option string :=
  match p, s with
  | "", _ => Some s
  | String _ _, "" => None
  | String a p', String b s' => if Ascii.eqb a b then strip_prefix p' s' else None
  end.

(** [t] is the text [s] from some offset on. *)
Definition is_suffix (t s : string) : Prop := exists p : string, s = p +:+ t.

(** [s] without its leading word characters. *)
Fixpoint skip_word (s : string) : string :=
  match s with
  | "" => ""
  | String c s' => if Re.is_word c then skip_word s' else s
  end.

(** A boundary of the handler pattern at the start of [t]: a line break
    followed by [@app.route], or by [def ], a name and an opening
    parenthesis, or by [class ] and a name, where a name is one or more
    word characters. *)
Definition boundary_at (t : string) : bool :=
  Py.startswith t (Py.nl +:+ "@app.route")
  || match strip_prefix (Py.nl +:+ "def ") t with
     | Some (String c r) => Re.is_word c && Py.startswith (skip_word r) "("
     | _ => false
     end
  || match strip_prefix (Py.nl +:+ "class ") t with
     | Some (String c _) => Re.is_word c
     | _ => false
     end.

(** No boundary at any offset of [s]: no line of [s] after its first
    starts a route, the header of a function or the header of a class. *)
Fixpoint no_boundary (s : string) : bool :=
  negb (boundary_at s)
  && match s with
     | "" => true
     | String _ s' => no_boundary s'
     end.

(** After every occurrence of the header of the handler, no boundary
    follows: the handler is the last declaration of the text. *)
Fixpoint handler_is_last (s : string) : bool :=
  match strip_prefix "def verify_signature():" s with
  | Some rest => no_boundary rest
  | None => true
  end
  && match s with
     | "" => true
     | String _ s' => handler_is_last s'
     end.

(** The lines that the get_storage() check shows for [lines], numbered
    from [start]. *)
Definition storage_evidence (lines : list string) (start : Z) : list event :=
  flat_map (fun '(i, line) =>
              if Py.str_in "get_storage()" line
              then fst (StaticAnalysis.info ("  Line " +:+ Py.str_int i +:+ ": "
                                             +:+ Py.strip line))
              else [])
           (Py.enumerate lines start).

(** The computation returns a value: it does not raise. *)
Definition returns {A} (m : io A) : Prop :=
  exists (out : list event) (a : A), m = (out, Return a).

(** What a check of the dynamic script does when its [try] block raises
    [e]: the header, the error line, the trace, and [False]. *)
Definition caught (header what : string) (e : exn) : io bool :=
  ((fst (CriticalFixes.print_test header)
    ++ fst (CriticalFixes.print_fail (what +:+ ": " +:+ str_exn e))
    ++ [PrintExc e])%list,
   Return false).

(** The package [app] cannot be imported: every import raises [e]. *)
Definition broken_package (e : exn) : CriticalFixes.env :=
  {| CriticalFixes.fs := Examples.no_app_py;
     CriticalFixes.import_app := Raise e;
     CriticalFixes.import_app_app := Raise e;
     CriticalFixes.import_db_storage := Raise e |}.

(** The module [app.app] is [m]; the application itself does not import
    and [app/app.py] is not there. *)
Definition module_env (m : CriticalFixes.app_module) : CriticalFixes.env :=
  {| CriticalFixes.fs := Examples.no_app_py;
     CriticalFixes.import_app := Raise (Exception "cannot import name 'app'");
     CriticalFixes.import_app_app := Return m;
     CriticalFixes.import_db_storage := Return tt |}.

(** A module with the class ClientManager and the function
    verify_signature. *)
Definition clean_module : CriticalFixes.app_module :=
  {| CriticalFixes.getmembers := [("ClientManager", false); ("verify_signature", true)];
     CriticalFixes.hasattr := fun _ => true;
     CriticalFixes.getsource := fun _ => Raise (Exception "could not get source code") |}.

(** The application imports, with one POST route for /verify_signature
    and the module [clean_module]; the process runs in the project root,
    where [app/app.py] holds [src]. *)
Definition running_app : CriticalFixes.flask_app :=
  {| CriticalFixes.iter_rules := Return [Examples.static_rule; Examples.post_rule] |}.

Definition running_env (src : string) : CriticalFixes.env :=
  {| CriticalFixes.fs := Harness.in_root (Examples.world_with (Some src));
     CriticalFixes.import_app := Return running_app;
     CriticalFixes.import_app_app := Return clean_module;
     CriticalFixes.import_db_storage := Return tt |}.

(** The checks of the static script that ask for a text to be present. *)
Definition presence_checks : list (world -> io bool) :=
  [StaticAnalysis.test_issue2_uses_store_oauth_client;
   StaticAnalysis.test_issue2_uses_get_oauth_client;
   StaticAnalysis.test_issue2_uses_oauth_code_functions;
   StaticAnalysis.test_issue3_redis_functions_exist;
   StaticAnalysis.test_issue3_get_redis_import].

(** The checks of the static script that ask for a text to be absent. *)
Definition absence_checks : list (world -> io bool) :=
  [StaticAnalysis.test_issue1_no_legacy_function;
   StaticAnalysis.test_issue2_no_get_storage_calls].

(** The handler of /verify_signature is the last declaration, and the
    text of its docstring has lines that start with [def ] and [class:]
    without being the header of a function or of a class. *)
Definition handler_last_with_docstring : string :=
  Py.join Py.nl
    ["import os";
     "def helper():";
     "    pass";
     "@app.route('/verify_signature')";
     "def verify_signature():";
     "    '''Verify a signed challenge.";
     "def initions of the fields follow";
     "class: none";
     "    '''";
     "    return _finish_login(pubkey)";
     ""].

(** No directory at all: the project root is missing. *)
Definition no_project_root : world := {| cwd := "/"; dirs := ∅; files := ∅ |}.

End Cover.

(** * Properties *)

Import IO IO.Notations Harness.

(** ** The monad and the loops *)

Lemma bind_print {B} line (k : unit -> io B) :
  bind (print line) k = (Print line :: fst (k tt), snd (k tt)).
Proof. unfold bind, print. now destruct (k tt). Qed.

Lemma bind_ret {A B} (a : A) (k : A -> io B) : bind (ret a) k = k a.
Proof. unfold bind, ret. now destruct (k a). Qed.

Lemma bind_raise {A B} (e : exn) (k : A -> io B) : bind (raise e) k = raise e.
Proof. reflexivity. Qed.

Lemma bind_unit {B} (m : io unit) (k : unit -> io B) :
  snd m = Return tt ->
  bind m k = ((fst m ++ fst (k tt))%list, snd (k tt)).
Proof. destruct m as [o r]; cbn; intros ->. now destruct (k tt). Qed.

Section Loops.
Context {A S : Type}.

Lemma for_fold_map {B} (f : A -> B) (l : list A) (s : S) (body : S -> B -> io S) :
  for_fold (map f l) s body = for_fold l s (fun s x => body s (f x)).
Proof.
  revert s. induction l as [|x l IH]; intros s; simpl; [reflexivity|].
  destruct (body s (f x)) as [out [s'|e]]; simpl; [|reflexivity].
  now rewrite IH.
Qed.

Lemma for_each_returns (l : list A) (body : A -> io unit) :
  (forall x, snd (body x) = Return tt) ->
  snd (for_each l body) = Return tt.
Proof.
  intros Hb. induction l as [|x l IH]; simpl; [reflexivity|].
  specialize (Hb x). destruct (body x) as [out r]; simpl in *; subst r.
  destruct (for_each l body) as [out' r']; simpl in *. assumption.
Qed.
End Loops.

(** ** The guarded loop over a catalog *)

Lemma guarded_eq results name r :
  guarded results (name, r) = (rule_output r, Return (dict_set results name (outcome r))).
Proof.
  destruct r as [out [b|e]]; unfold guarded, rule_output, outcome; simpl.
  - now rewrite !app_nil_r.
  - reflexivity.
Qed.

Lemma guarded_fold (cat : catalog) (d : dict) :
  for_fold cat d guarded =
  (catalog_output cat,
   Return (fold_left (fun d c => dict_set d (fst c) (outcome (snd c))) cat d)).
Proof.
  unfold catalog_output.
  revert d. induction cat as [|[name r] cat IH]; intros d; [reflexivity|].
  cbn [for_fold map List.concat fold_left fst snd]. rewrite guarded_eq.
  cbn [bind]. now rewrite IH.
Qed.

Lemma dict_set_fresh (d : dict) k v :
  k ∉ map fst d -> dict_set d k v = (d ++ [(k, v)])%list.
Proof.
  induction d as [|[k' v'] d IH]; intros Hk; [reflexivity|].
  cbn [dict_set]. cbn [map fst] in Hk. apply not_elem_of_cons in Hk as [Hne Hk].
  destruct (String.eqb_spec k' k) as [->|_]; [congruence|].
  cbn [app]. now rewrite IH.
Qed.

Lemma fold_recorded (cat : catalog) (d : dict) :
  NoDup (map fst d ++ map fst cat)%list ->
  fold_left (fun d c => dict_set d (fst c) (outcome (snd c))) cat d
  = (d ++ recorded cat)%list.
Proof.
  revert d. induction cat as [|[name r] cat IH]; intros d Hnd.
  - cbn. now rewrite app_nil_r.
  - cbn [fold_left fst snd recorded map].
    cbn [map fst] in Hnd.
    rewrite dict_set_fresh.
    + rewrite IH.
      * now rewrite <- app_assoc.
      * rewrite map_app. cbn [map fst]. now rewrite <- app_assoc.
    + apply NoDup_app in Hnd as (_ & Hd & _).
      intros Hin. apply (Hd _ Hin). left.
Qed.

Lemma run_catalog (cat : catalog) :
  NoDup (map fst cat) ->
  for_fold cat [] guarded = (catalog_output cat, Return (recorded cat)).
Proof.
  intros Hnd. rewrite guarded_fold. f_equal. f_equal.
  now rewrite fold_recorded.
Qed.

Lemma static_run_tests tests w :
  StaticAnalysis.run_tests tests w = for_fold (static_catalog tests w) [] guarded.
Proof. unfold static_catalog. now rewrite for_fold_map. Qed.

Lemma critical_run_tests all_tests v :
  CriticalFixes.run_tests all_tests v = for_fold (critical_catalog all_tests v) [] guarded.
Proof.
  unfold critical_catalog, CriticalFixes.run_tests. rewrite for_fold_map.
  generalize (@nil (string * bool)).
  induction all_tests as [|[n f] l IH]; intros d; [reflexivity|].
  cbn [for_fold]. unfold guarded at 1. cbn [fst snd].
  destruct (try_except _ _) as [o [d'|e]]; cbn [bind]; [|reflexivity].
  now rewrite IH.
Qed.

Lemma run_tests_catalog (h : harness_run) :
  NoDup (map fst (catalog_of h)) ->
  run_tests h = (catalog_output (catalog_of h), Return (recorded (catalog_of h))).
Proof.
  intros Hnd. destruct h as [tests w|all_tests v]; cbn [run_tests catalog_of] in *.
  - rewrite static_run_tests. now apply run_catalog.
  - rewrite critical_run_tests. now apply run_catalog.
Qed.

Lemma dict_get_recorded (cat : catalog) n r :
  NoDup (map fst cat) -> (n, r) ∈ cat ->
  dict_get (recorded cat) n = Some (outcome r).
Proof.
  induction cat as [|[n' r'] cat IH]; intros Hnd Hin; [by apply elem_of_nil in Hin|].
  cbn [map fst] in Hnd. apply NoDup_cons in Hnd as [Hn' Hnd].
  cbn [recorded map dict_get fst snd].
  apply elem_of_cons in Hin as [Heq|Hin].
  - injection Heq as -> ->. now rewrite String.eqb_refl.
  - destruct (String.eqb_spec n' n) as [->|_].
    + exfalso. apply Hn'. apply (list_elem_of_fmap_2 fst) in Hin. exact Hin.
    + now apply IH.
Qed.

Lemma len_recorded (cat : catalog) : len (recorded cat) = len cat.
Proof. unfold len, recorded. now rewrite length_map. Qed.

(** ** Counting verdicts *)

Lemma verdict_cases r :
  outcome r = true /\ (verdict_of r = PASS \/ verdict_of r = WARN)
  \/ outcome r = false /\ verdict_of r = FAIL.
Proof.
  unfold verdict_of. destruct (outcome r); [left|right]; split; try reflexivity.
  destruct (existsb _ _); auto.
Qed.

Lemma failed_recorded (cat : catalog) :
  count_if (fun r => negb r) (values (recorded cat)) = count_verdict is_fail cat.
Proof.
  unfold count_verdict, count_if, values, recorded.
  induction cat as [|[n r] cat IH]; [reflexivity|].
  cbn [map List.filter fst snd].
  destruct (verdict_cases r) as [[-> [->| ->]]|[-> ->]];
    cbn [negb is_fail List.length]; lia.
Qed.

Lemma passed_recorded (cat : catalog) :
  count_if (fun r => r) (values (recorded cat))
  = count_verdict is_pass cat + count_verdict is_warn cat.
Proof.
  unfold count_verdict, count_if, values, recorded.
  induction cat as [|[n r] cat IH]; [reflexivity|].
  cbn [map List.filter fst snd].
  destruct (verdict_cases r) as [[-> [->| ->]]|[-> ->]];
    cbn [is_pass is_warn List.length]; lia.
Qed.

Lemma count_split (cat : catalog) :
  count_verdict is_pass cat + count_verdict is_warn cat + count_verdict is_fail cat
  = len cat.
Proof.
  unfold count_verdict, count_if, len.
  induction cat as [|[n r] cat IH]; [reflexivity|].
  cbn [List.filter fst snd].
  destruct (verdict_of r); cbn [is_pass is_warn is_fail List.length]; lia.
Qed.

Lemma count_verdict_nonneg p (cat : catalog) : 0 <= count_verdict p cat.
Proof. unfold count_verdict, count_if. lia. Qed.

Lemma total_minus_passed (cat : catalog) :
  len (recorded cat) - count_if (fun r => r) (values (recorded cat))
  = count_verdict is_fail cat.
Proof. rewrite len_recorded, passed_recorded, <- (count_split cat). lia. Qed.

(** ** The summary and [main] *)

Lemma static_summary (results : dict) :
  let passed := count_if (fun r => r) (values results) in
  let total := len results in
  let failed := total - passed in
  snd (StaticAnalysis.summary results) = Return (if failed =? 0 then 0 else 1)
  /\ Print (StaticAnalysis.result_line passed total failed)
       ∈ fst (StaticAnalysis.summary results).
Proof.
  intros passed total failed. unfold StaticAnalysis.summary.
  rewrite !bind_print. cbn [fst snd].
  fold passed total failed.
  rewrite bind_unit by (apply for_each_returns; now intros [n b]).
  cbn [fst snd]. split.
  - now destruct (failed =? 0).
  - do 3 apply list_elem_of_further. apply elem_of_app. right. apply list_elem_of_here.
Qed.

Lemma critical_summary (results : dict) :
  let passed := count_if (fun r => r) (values results) in
  let failed := count_if (fun r => negb r) (values results) in
  let total := len results in
  snd (CriticalFixes.summary results) = Return (if failed =? 0 then 0 else 1)
  /\ Print (CriticalFixes.total_line passed total failed)
       ∈ fst (CriticalFixes.summary results).
Proof.
  intros passed failed total. unfold CriticalFixes.summary.
  rewrite !bind_print. cbn [fst snd].
  fold passed total failed.
  rewrite bind_unit by (apply for_each_returns; now intros [n b]).
  cbn [fst snd]. split.
  - now destruct (failed =? 0).
  - do 3 apply list_elem_of_further. apply elem_of_app. right. apply list_elem_of_here.
Qed.

(** The summary of a catalog in which every key is recorded once. *)
Lemma summary_recorded (h : harness_run) (cat : catalog) :
  let fails := count_verdict is_fail cat in
  snd (summary h (recorded cat)) = Return (if fails =? 0 then 0 else 1)
  /\ Print (counts_line h (count_verdict is_pass cat + count_verdict is_warn cat)
              (len cat) fails)
       ∈ fst (summary h (recorded cat)).
Proof.
  intros fails. destruct h as [tests w|all_tests v]; cbn [summary counts_line].
  - pose proof (static_summary (recorded cat)) as H. cbn zeta in H.
    now rewrite total_minus_passed, passed_recorded, len_recorded in H.
  - pose proof (critical_summary (recorded cat)) as H. cbn zeta in H.
    now rewrite failed_recorded, passed_recorded, len_recorded in H.
Qed.

Lemma static_names_nodup : NoDup (map StaticAnalysis.__name__ StaticAnalysis.tests).
Proof. apply (bool_decide_unpack _). vm_compute. reflexivity. Qed.

Lemma critical_names_nodup : NoDup (map fst CriticalFixes.all_tests).
Proof. apply (bool_decide_unpack _). vm_compute. reflexivity. Qed.

Lemma static_catalog_names tests w :
  map fst (static_catalog tests w) = map StaticAnalysis.__name__ tests.
Proof. unfold static_catalog. rewrite map_map. reflexivity. Qed.

Lemma critical_catalog_names all_tests v :
  map fst (critical_catalog all_tests v) = map fst all_tests.
Proof. unfold critical_catalog. rewrite map_map. reflexivity. Qed.

Lemma main_names_nodup (i : invocation) : NoDup (map fst (catalog_of (loop_of i))).
Proof.
  destruct i as [w|v]; cbn [loop_of catalog_of].
  - rewrite static_catalog_names. apply static_names_nodup.
  - rewrite critical_catalog_names. apply critical_names_nodup.
Qed.

Lemma chdir_root w :
  StaticAnalysis.project_root ∈ dirs w ->
  chdir w StaticAnalysis.project_root = ret (in_root w).
Proof.
  intros Hd. unfold chdir.
  change (abspath w StaticAnalysis.project_root) with StaticAnalysis.project_root.
  now destruct (decide _).
Qed.

Lemma chdir_no_root w :
  StaticAnalysis.project_root ∉ dirs w ->
  chdir w StaticAnalysis.project_root = raise (no_such_file StaticAnalysis.project_root).
Proof.
  intros Hd. unfold chdir.
  change (abspath w StaticAnalysis.project_root) with StaticAnalysis.project_root.
  now destruct (decide _).
Qed.

(** [main] prints its banner, runs the loop and ends with the summary. *)
Lemma main_eq (i : invocation) :
  reaches_catalog i ->
  let h := loop_of i in
  let cat := catalog_of h in
  main i =
  ((banner i ++ catalog_output cat ++ fst (summary h (recorded cat)))%list,
   snd (summary h (recorded cat))).
Proof.
  intros Hr h cat. pose proof (main_names_nodup i) as Hnd. fold h cat in Hnd.
  pose proof (run_tests_catalog h Hnd) as Hrun. fold cat in Hrun.
  destruct i as [w|v]; cbn [main banner reaches_catalog] in *.
  - unfold StaticAnalysis.main.
    rewrite !bind_print. rewrite (chdir_root w Hr), bind_ret.
    cbn [run_tests h loop_of] in Hrun. rewrite Hrun.
    cbn [ret bind fst snd app summary h loop_of].
    destruct (StaticAnalysis.summary (recorded cat)) as [o r]. reflexivity.
  - unfold CriticalFixes.main.
    rewrite !bind_print.
    cbn [run_tests h loop_of] in Hrun. rewrite Hrun.
    cbn [ret bind fst snd app summary h loop_of].
    destruct (CriticalFixes.summary (recorded cat)) as [o r]. reflexivity.
Qed.

(** ** C1: isolation of the checks *)

(** C1.  In the loop of either script, over any catalog whose keys are
    distinct (as those of both scripts are), a check that raises an
    exception is caught at the call: the loop itself returns, [False] is
    recorded for that check, every check of the catalog is run in turn (the
    output of the loop is the output of each check, followed by the crash
    report where one raised) and has its own entry in the results, and the
    summary prints the size of the catalog as the total. *)
Theorem C1_rule_isolation (h : harness_run) (name : string) (r : io bool)
    (out : list event) (e : exn) :
  NoDup (map fst (catalog_of h)) ->
  (name, r) ∈ catalog_of h ->
  r = (out, Raise e) ->
  exists results : dict,
    run_tests h = (catalog_output (catalog_of h), Return results)
    /\ rule_output r = (out ++ crash_report e)%list
    /\ dict_get results name = Some false
    /\ (forall name' r', (name', r') ∈ catalog_of h ->
          dict_get results name' = Some (outcome r'))
    /\ len results = len (catalog_of h)
    /\ exists passed failed,
         Print (counts_line h passed (len (catalog_of h)) failed)
           ∈ fst (summary h results).
Proof.
  intros Hnd Hin Hr. exists (recorded (catalog_of h)).
  split; [now apply run_tests_catalog|].
  split; [now subst r|].
  split; [rewrite (dict_get_recorded _ name r Hnd Hin); now subst r|].
  split; [intros name' r' Hin'; now apply dict_get_recorded|].
  split; [apply len_recorded|].
  eexists _, _. apply (summary_recorded h (catalog_of h)).
Qed.

(** The static script on a machine without [app/app.py]: the first check
    raises, and the loop goes on. *)
Lemma C1_rule_isolation_witness :
  exists results : dict,
    run_tests (loop_of (StaticMain Examples.no_app_py))
    = (catalog_output (catalog_of (loop_of (StaticMain Examples.no_app_py))),
       Return results)
    /\ dict_get results "test_issue1_no_duplicate_routes" = Some false
    /\ len results = 14.
Proof.
  destruct (C1_rule_isolation (loop_of (StaticMain Examples.no_app_py))
              "test_issue1_no_duplicate_routes"
              (StaticAnalysis.test_issue1_no_duplicate_routes (in_root Examples.no_app_py))
              [Print (Py.nl +:+ BLUE +:+ BOLD +:+ "▶ "
                      +:+ "Issue #1: No duplicate /verify_signature routes" +:+ END)]
              (no_such_file "app/app.py"))
    as (results & Hrun & _ & Hget & _ & Hlen & _).
  - apply main_names_nodup.
  - apply list_elem_of_here.
  - vm_compute. reflexivity.
  - exists results. split; [exact Hrun|]. split; [exact Hget|].
    rewrite Hlen. reflexivity.
Defined.

(** ** C2: the exit code and the failed count *)

(** C2, as the code has it.  A run of either script that gets to its
    catalog (the static script changes to the project root first) returns: its exit
    code is 0 exactly when no check has the verdict FAIL and 1 otherwise,
    and the summary prints, as the failed count, the number of checks whose
    verdict is FAIL (with the size of the catalog as the total). *)
Theorem C2_exit_code (i : invocation) :
  reaches_catalog i ->
  let cat := catalog_of (loop_of i) in
  let fails := count_verdict is_fail cat in
  exists (out : list event) (code passed : Z),
    main i = (out, Return code)
    /\ (code = 0 <-> fails = 0)
    /\ (code = 1 <-> fails <> 0)
    /\ Print (counts_line (loop_of i) passed (len cat) fails) ∈ out.
Proof.
  intros Hr cat fails. rewrite (main_eq i Hr). fold cat.
  destruct (summary_recorded (loop_of i) cat) as [Hcode Hline]. fold fails in Hcode, Hline.
  eexists _, (if fails =? 0 then 0 else 1), _.
  split; [rewrite Hcode; reflexivity|].
  split; [|split].
  - destruct (Z.eqb_spec fails 0); split; intros; congruence || lia.
  - destruct (Z.eqb_spec fails 0); split; intros; congruence || lia.
  - apply elem_of_app. right. apply elem_of_app. right. exact Hline.
Qed.

(** The static script on a machine without [app/app.py]: the fourteen
    checks fail and the exit code is 1. *)
Lemma C2_exit_code_witness :
  exists (out : list event) (code passed : Z),
    main (StaticMain Examples.no_app_py) = (out, Return code)
    /\ (code = 0 <-> 14 = 0)
    /\ (code = 1 <-> 14 <> 0)
    /\ Print (StaticAnalysis.result_line passed 14 14) ∈ out.
Proof.
  apply (C2_exit_code (StaticMain Examples.no_app_py)).
  vm_compute. reflexivity.
Defined.

(** ** C4: a missing or unreadable source file *)

(** Every check of the static script prints its header and then reads
    [app/app.py]: when the read raises, so does the check. *)
Ltac read_fails H :=
  match goal with
  | |- ?f ?w = _ => unfold f, StaticAnalysis.test
  end;
  rewrite bind_print, H; reflexivity.

Lemma static_checks_raise (w : world) (e : exn) :
  StaticAnalysis.read_file w "app/app.py" = raise e ->
  Forall (fun t => exists header,
            StaticAnalysis.call t w = ([Print header], Raise e))
         StaticAnalysis.tests.
Proof.
  intros H. unfold StaticAnalysis.tests.
  repeat (apply Forall_cons; split; [eexists; cbn [StaticAnalysis.call StaticAnalysis.def]; read_fails H|]).
  apply Forall_nil. exact I.
Qed.

Lemma recorded_all_false (tests : list StaticAnalysis.pyfunc) (w : world) (e : exn) :
  Forall (fun t => exists header,
            StaticAnalysis.call t w = ([Print header], Raise e)) tests ->
  recorded (static_catalog tests w)
  = map (fun t => (StaticAnalysis.__name__ t, false)) tests.
Proof.
  unfold recorded, static_catalog. rewrite map_map. cbn [fst snd].
  induction 1 as [|t l [header Ht] _ IH]; [reflexivity|].
  cbn [map]. rewrite IH. unfold outcome. now rewrite Ht.
Qed.

(** C4, as the code has it.  When the project root is there and reading
    [app/app.py] raises (the file is missing or unreadable), the run does
    not abort: each of the fourteen checks prints its header and raises,
    the loop catches the exception and records [False] for that check and
    goes on to the next, the summary reports 0 of 14 passed and 14 of 14
    failed, and [main] returns the exit code 1. *)
Theorem C4_read_error_fails_each_check (w : world) (e : exn) :
  StaticAnalysis.project_root ∈ dirs w ->
  StaticAnalysis.read_file (in_root w) "app/app.py" = raise e ->
  exists out : list event,
    StaticAnalysis.main w = (out, Return 1)
    /\ Forall (fun t => exists header,
                 StaticAnalysis.call t (in_root w) = ([Print header], Raise e))
              StaticAnalysis.tests
    /\ snd (StaticAnalysis.run_tests StaticAnalysis.tests (in_root w))
       = Return (map (fun t => (StaticAnalysis.__name__ t, false)) StaticAnalysis.tests)
    /\ Print (StaticAnalysis.result_line 0 14 14) ∈ out.
Proof.
  intros Hroot Hread.
  pose proof (static_checks_raise (in_root w) e Hread) as Hall.
  pose proof (recorded_all_false _ _ _ Hall) as Hrec.
  pose proof (main_eq (StaticMain w) Hroot) as Hmain.
  cbn [main loop_of catalog_of summary banner] in Hmain. cbv zeta in Hmain.
  rewrite Hrec in Hmain.
  pose proof (run_tests_catalog (loop_of (StaticMain w)) (main_names_nodup _)) as Hrun.
  cbn [run_tests loop_of catalog_of] in Hrun. rewrite Hrec in Hrun.
  eexists. split; [rewrite Hmain; f_equal; vm_compute; reflexivity|].
  split; [exact Hall|].
  split; [now rewrite Hrun|].
  apply elem_of_app. right. apply elem_of_app. right.
  apply list_elem_of_In. vm_compute. do 17 right. left. reflexivity.
Qed.

Lemma C4_read_error_fails_each_check_witness :
  exists out : list event,
    StaticAnalysis.main Examples.no_app_py = (out, Return 1)
    /\ Print (StaticAnalysis.result_line 0 14 14) ∈ out.
Proof.
  destruct (C4_read_error_fails_each_check Examples.no_app_py (no_such_file "app/app.py"))
    as (out & Hmain & _ & _ & Hline).
  - vm_compute. reflexivity.
  - vm_compute. reflexivity.
  - exists out. split; assumption.
Defined.

(** C4, as stated, fails on the machine without [app/app.py]: reading the
    file raises, yet [main] does not raise; it returns 1 after all of the
    fourteen checks were run and recorded. *)
Lemma C4_counterexample :
  StaticAnalysis.read_file (in_root Examples.no_app_py) "app/app.py"
  = raise (no_such_file "app/app.py")
  /\ (forall e, snd (StaticAnalysis.main Examples.no_app_py) <> Raise e)
  /\ snd (StaticAnalysis.main Examples.no_app_py) = Return 1
  /\ snd (StaticAnalysis.run_tests StaticAnalysis.tests (in_root Examples.no_app_py))
     = Return (map (fun t => (StaticAnalysis.__name__ t, false)) StaticAnalysis.tests).
Proof.
  assert (Hret : snd (StaticAnalysis.main Examples.no_app_py) = Return 1)
    by (vm_compute; reflexivity).
  split; [vm_compute; reflexivity|].
  split; [intros e; rewrite Hret; discriminate|].
  split; [exact Hret|].
  vm_compute. reflexivity.
Qed.

(** ** C7: warnings *)

(** C7, as the code has it.  In a run of either script that gets to its
    catalog, a check that warns returns [True]: when no check has the
    verdict FAIL the exit code is 0, whatever the number of WARN verdicts;
    the passed count of the summary is the number of PASS verdicts plus the
    number of WARN verdicts, and the failed count is the number of FAIL
    verdicts, so a WARN is never counted as failed. *)
Theorem C7_warn_counts_as_passed (i : invocation) :
  reaches_catalog i ->
  let cat := catalog_of (loop_of i) in
  exists (out : list event) (code : Z),
    main i = (out, Return code)
    /\ (count_verdict is_fail cat = 0 -> code = 0)
    /\ Print (counts_line (loop_of i)
                (count_verdict is_pass cat + count_verdict is_warn cat)
                (len cat)
                (count_verdict is_fail cat)) ∈ out.
Proof.
  intros Hr cat. rewrite (main_eq i Hr). fold cat.
  destruct (summary_recorded (loop_of i) cat) as [Hcode Hline].
  eexists _, _. split; [rewrite Hcode; reflexivity|].
  split.
  - intros ->. reflexivity.
  - apply elem_of_app. right. apply elem_of_app. right. exact Hline.
Qed.

Lemma C7_warn_counts_as_passed_witness :
  exists (out : list event) (code : Z),
    main (StaticMain (Examples.world_with (Some Examples.app_with_warnings)))
    = (out, Return code)
    /\ (0 = 0 -> code = 0)
    /\ Print (StaticAnalysis.result_line (11 + 3) 14 0) ∈ out.
Proof.
  apply (C7_warn_counts_as_passed
           (StaticMain (Examples.world_with (Some Examples.app_with_warnings)))).
  vm_compute. reflexivity.
Defined.

(** C7, as stated, fails on [Examples.app_with_warnings]: eleven checks
    have the verdict PASS and three the verdict WARN, none FAIL; the exit
    code is 0, and the summary reports 14 of 14 passed, not 11. *)
Lemma C7_counterexample :
  count_verdict is_pass
    (static_catalog StaticAnalysis.tests
       (in_root (Examples.world_with (Some Examples.app_with_warnings)))) = 11
  /\ count_verdict is_warn
       (static_catalog StaticAnalysis.tests
          (in_root (Examples.world_with (Some Examples.app_with_warnings)))) = 3
  /\ count_verdict is_fail
       (static_catalog StaticAnalysis.tests
          (in_root (Examples.world_with (Some Examples.app_with_warnings)))) = 0
  /\ snd (StaticAnalysis.main (Examples.world_with (Some Examples.app_with_warnings)))
     = Return 0
  /\ printed (StaticAnalysis.result_line 14 14 0)
       (fst (StaticAnalysis.main (Examples.world_with (Some Examples.app_with_warnings))))
     = true
  /\ printed (StaticAnalysis.result_line 11 14 0)
       (fst (StaticAnalysis.main (Examples.world_with (Some Examples.app_with_warnings))))
     = false.
Proof. vm_compute. repeat split. Qed.

(** ** C10: the deprecation-marker check *)

Lemma deprecated_stores_marked_returns (w : world) (source : string) :
  StaticAnalysis.read_file w "app/app.py" = ret source ->
  snd (StaticAnalysis.test_issue2_deprecated_stores_marked w) = Return true.
Proof.
  intros H. unfold StaticAnalysis.test_issue2_deprecated_stores_marked, StaticAnalysis.test.
  rewrite bind_print, H, bind_ret. cbn [snd].
  unfold StaticAnalysis.ok, StaticAnalysis.warn.
  destruct (_ && _); rewrite bind_print; cbn [snd];
    destruct (_ && _); rewrite bind_print; reflexivity.
Qed.

(** C10.  Whatever the text of [app/app.py], the check of the DEPRECATED
    marks of CLIENT_STORE and AUTH_CODE_STORE returns [True]: its verdict
    is never FAIL, and the loop of [main] records [True] for it. *)
Theorem C10_deprecation_marker_never_fails (w : world) (source : string) :
  StaticAnalysis.read_file w "app/app.py" = ret source ->
  (exists out : list event,
     StaticAnalysis.test_issue2_deprecated_stores_marked w = (out, Return true))
  /\ verdict_of (StaticAnalysis.test_issue2_deprecated_stores_marked w) <> FAIL
  /\ exists (o : list event) (results : dict),
       StaticAnalysis.run_tests StaticAnalysis.tests w = (o, Return results)
       /\ dict_get results "test_issue2_deprecated_stores_marked" = Some true.
Proof.
  intros H. pose proof (deprecated_stores_marked_returns w source H) as Hret.
  split; [|split].
  - destruct (StaticAnalysis.test_issue2_deprecated_stores_marked w) as [out r].
    cbn [snd] in Hret. subst r. now exists out.
  - unfold verdict_of, outcome. rewrite Hret. now destruct (existsb _ _).
  - pose proof (run_tests_catalog (StaticRun StaticAnalysis.tests w)) as Hrun.
    cbn [run_tests catalog_of] in Hrun.
    assert (Hnd : NoDup (map fst (static_catalog StaticAnalysis.tests w)))
      by (rewrite static_catalog_names; apply static_names_nodup).
    eexists _, _. split; [apply Hrun, Hnd|].
    rewrite (dict_get_recorded _ "test_issue2_deprecated_stores_marked"
               (StaticAnalysis.test_issue2_deprecated_stores_marked w) Hnd).
    + unfold outcome. now rewrite Hret.
    + unfold static_catalog, StaticAnalysis.tests. cbn [map StaticAnalysis.def
        StaticAnalysis.__name__ StaticAnalysis.call].
      do 7 apply list_elem_of_further. apply list_elem_of_here.
Qed.

(** An empty [app/app.py]: both stores are unmarked, the check warns twice
    and returns [True]. *)
Lemma C10_deprecation_marker_never_fails_witness :
  (exists out : list event,
     StaticAnalysis.test_issue2_deprecated_stores_marked
       (in_root (Examples.world_with (Some ""))) = (out, Return true))
  /\ verdict_of (StaticAnalysis.test_issue2_deprecated_stores_marked
                   (in_root (Examples.world_with (Some "")))) = WARN.
Proof.
  destruct (C10_deprecation_marker_never_fails
              (in_root (Examples.world_with (Some ""))) "") as (Hret & _ & _).
  - vm_compute. reflexivity.
  - split; [exact Hret|]. vm_compute. reflexivity.
Defined.

(** ** C3: the count of /verify_signature routes *)

(** C3, as the code has it.  With [n] matches of the route pattern in the
    text of [app/app.py], the check prints its header and one line: for
    [n = 1] the confirmation, and it returns [True]; for [n = 0] the
    failure that no route was found, and it returns [False]; for [n >= 2]
    the failure that gives the count [n] of duplicate routes (and nothing
    else: no location of a match), and it returns [False].  The two
    failure messages differ. *)
Theorem C3_route_count (w : world) (source : string) :
  StaticAnalysis.read_file w "app/app.py" = ret source ->
  let n := len (Re.findall StaticAnalysis.route_pattern source) in
  let header := fst (StaticAnalysis.test "Issue #1: No duplicate /verify_signature routes") in
  let missing := "No /verify_signature route found!" in
  let duplicate := "Found " +:+ Py.str_int n +:+ " duplicate /verify_signature routes!" in
  (n = 1 ->
     StaticAnalysis.test_issue1_no_duplicate_routes w
     = ((header ++ fst (StaticAnalysis.ok "Only ONE /verify_signature route found (correct)"))%list,
        Return true))
  /\ (n = 0 ->
        StaticAnalysis.test_issue1_no_duplicate_routes w
        = ((header ++ fst (StaticAnalysis.fail missing))%list, Return false))
  /\ (2 <= n ->
        StaticAnalysis.test_issue1_no_duplicate_routes w
        = ((header ++ fst (StaticAnalysis.fail duplicate))%list, Return false))
  /\ missing <> duplicate.
Proof.
  intros H n header missing duplicate.
  unfold StaticAnalysis.test_issue1_no_duplicate_routes.
  unfold header, StaticAnalysis.test at 1 2 3.
  rewrite !bind_print, H, !bind_ret. cbn [fst snd]. fold n.
  repeat split.
  - intros Hn. rewrite Hn. reflexivity.
  - intros Hn. rewrite Hn. reflexivity.
  - intros Hn. destruct (Z.eqb_spec n 0); [lia|]. destruct (Z.eqb_spec n 1); [lia|].
    reflexivity.
  - discriminate.
Qed.

Lemma C3_route_count_witness :
  StaticAnalysis.test_issue1_no_duplicate_routes
    (in_root (Examples.world_with (Some Examples.handler_last)))
  = ((fst (StaticAnalysis.test "Issue #1: No duplicate /verify_signature routes")
      ++ fst (StaticAnalysis.ok "Only ONE /verify_signature route found (correct)"))%list,
     Return true).
Proof.
  apply (C3_route_count (in_root (Examples.world_with (Some Examples.handler_last)))
           Examples.handler_last).
  - vm_compute. reflexivity.
  - vm_compute. reflexivity.
Defined.

(** C3, as stated, fails on two texts with two route declarations each, at
    the offsets 0 and 83 in the first and 10 and 66 in the second: the check
    prints the same two lines for both, the header and the count of
    duplicates, so what it prints does not list where the matches are. *)
Lemma C3_counterexample :
  map Re.start (Re.finditer StaticAnalysis.route_pattern Examples.two_routes_a)
  = [0; 83]%nat
  /\ map Re.start (Re.finditer StaticAnalysis.route_pattern Examples.two_routes_b)
     = [10; 66]%nat
  /\ StaticAnalysis.test_issue1_no_duplicate_routes
       (in_root (Examples.world_with (Some Examples.two_routes_a)))
     = StaticAnalysis.test_issue1_no_duplicate_routes
         (in_root (Examples.world_with (Some Examples.two_routes_b)))
  /\ StaticAnalysis.test_issue1_no_duplicate_routes
       (in_root (Examples.world_with (Some Examples.two_routes_a)))
     = ((fst (StaticAnalysis.test "Issue #1: No duplicate /verify_signature routes")
         ++ fst (StaticAnalysis.fail "Found 2 duplicate /verify_signature routes!"))%list,
        Return false).
Proof. vm_compute. repeat split. Qed.

(** ** Substrings, [join] and [sorted] *)

Lemma startswith_app (x b : string) : Py.startswith (x +:+ b) x = true.
Proof.
  induction x as [|c x IH]; [now destruct b|].
  change (String c x +:+ b) with (String c (x +:+ b)).
  cbn [Py.startswith]. now rewrite Ascii.eqb_refl.
Qed.

Lemma startswith_app_l (s x b : string) :
  Py.startswith s x = true -> Py.startswith (s +:+ b) x = true.
Proof.
  revert s. induction x as [|c x IH]; intros s H; [now destruct (s +:+ b)|].
  destruct s as [|d s]; [discriminate|].
  change (String d s +:+ b) with (String d (s +:+ b)).
  cbn [Py.startswith] in *.
  destruct (Ascii.eqb c d); [now apply IH|discriminate].
Qed.

Lemma str_in_here (x s : string) : Py.startswith s x = true -> Py.str_in x s = true.
Proof. intros H. destruct s; cbn [Py.str_in]; now rewrite H. Qed.

Lemma str_in_app_l (x s b : string) :
  Py.str_in x s = true -> Py.str_in x (s +:+ b) = true.
Proof.
  induction s as [|c s IH]; intros H.
  - cbn [Py.str_in] in H. rewrite orb_false_r in H.
    apply str_in_here. now apply (startswith_app_l "").
  - cbn [Py.str_in] in H. apply orb_true_iff in H as [H|H].
    + apply str_in_here. now apply startswith_app_l.
    + change (String c s +:+ b) with (String c (s +:+ b)). cbn [Py.str_in].
      rewrite (IH H). apply orb_true_r.
Qed.

Lemma str_in_app_r (x a s : string) :
  Py.str_in x s = true -> Py.str_in x (a +:+ s) = true.
Proof.
  intros H. induction a as [|c a IH]; [exact H|].
  change (String c a +:+ s) with (String c (a +:+ s)). cbn [Py.str_in].
  rewrite IH. apply orb_true_r.
Qed.

Lemma startswith_refl (x : string) : Py.startswith x x = true.
Proof. induction x as [|c x IH]; [reflexivity|]. cbn [Py.startswith]. now rewrite Ascii.eqb_refl. Qed.

Lemma str_in_refl (x : string) : Py.str_in x x = true.
Proof. apply str_in_here, startswith_refl. Qed.

Lemma str_in_join (x sep : string) (l : list string) :
  In x l -> Py.str_in x (Py.join sep l) = true.
Proof.
  induction l as [|y l IH]; intros Hin; [destruct Hin|].
  destruct l as [|z l].
  - destruct Hin as [->|[]]. apply str_in_refl.
  - change (Py.join sep (y :: z :: l)) with (y +:+ sep +:+ Py.join sep (z :: l)).
    destruct Hin as [->|Hin].
    + apply str_in_app_l, str_in_refl.
    + apply str_in_app_r, str_in_app_r, IH, Hin.
Qed.

Lemma insort_In (x y : string) (l : list string) :
  In x (Py.insort y l) <-> x = y \/ In x l.
Proof.
  induction l as [|z l IH]; cbn [Py.insort].
  - cbn. intuition.
  - destruct (String.leb y z); cbn [In]; [intuition|]. rewrite IH. intuition.
Qed.

Lemma sorted_In (x : string) (l : list string) : In x (Py.sorted l) <-> In x l.
Proof.
  unfold Py.sorted. induction l as [|y l IH]; cbn [foldr]; [reflexivity|].
  rewrite insort_In, IH. cbn. intuition.
Qed.

(** A method of the rule, other than HEAD and OPTIONS, is in the text of
    its methods. *)
Lemma method_in_route (rl : CriticalFixes.url_rule) (m : string) :
  m ∈ CriticalFixes.methods rl -> m <> "HEAD" -> m <> "OPTIONS" ->
  Py.str_in m (CriticalFixes.r_methods (to_route rl)) = true.
Proof.
  intros Hm Hh Ho. cbn [to_route CriticalFixes.r_methods].
  apply str_in_join, sorted_In, list_elem_of_In, elem_of_elements.
  apply elem_of_difference. split; [exact Hm|].
  rewrite elem_of_union, !elem_of_singleton. intuition.
Qed.

Lemma routes_of_verify (rules : list CriticalFixes.url_rule) :
  List.filter (fun r => String.eqb (CriticalFixes.r_path r) "/verify_signature")
              (CriticalFixes.routes_of rules)
  = map to_route (verify_entries rules).
Proof.
  unfold CriticalFixes.routes_of, verify_entries.
  induction rules as [|rl rules IH]; [reflexivity|].
  cbn [flat_map List.filter].
  destruct (negb (String.eqb (CriticalFixes.endpoint rl) "static")); cbn [andb app].
  - cbn [List.filter CriticalFixes.r_path].
    destruct (String.eqb (CriticalFixes.rule rl) "/verify_signature");
      cbn [map]; now rewrite IH.
  - exact IH.
Qed.

(** ** C5: the route table *)

Lemma for_each_print {A} (l : list A) (f : A -> string) :
  for_each l (fun x => print (f x)) = (map (fun x => Print (f x)) l, Return tt).
Proof.
  induction l as [|x l IH]; [reflexivity|].
  cbn [for_each map]. now rewrite bind_print, IH.
Qed.

(** C5.  Let the application import, and take the rules of its route table
    for the path /verify_signature, the endpoint [static] left out.  With
    exactly one such rule whose methods contain POST, the check prints that
    the one route exists and that it accepts POST, and returns [True].
    With exactly one such rule whose methods, HEAD and OPTIONS apart, are
    GET only, it prints that the one route exists, then that the route does
    not accept POST, and returns [False].  With no such rule it prints that
    no route was found, with two or more the count of duplicates followed
    by one line per rule; it returns [False] in both cases, and the two
    messages differ. *)
Theorem C5_route_table (v : CriticalFixes.env) (app : CriticalFixes.flask_app)
    (rules : list CriticalFixes.url_rule) :
  CriticalFixes.import_app v = Return app ->
  CriticalFixes.iter_rules app = Return rules ->
  let check := CriticalFixes.test_no_duplicate_verify_signature v in
  let header :=
    fst (CriticalFixes.print_test "Issue #1: No duplicate /verify_signature routes") in
  let exists_line rl :=
    fst (CriticalFixes.print_pass
           ("Only ONE /verify_signature route exists: "
            +:+ CriticalFixes.str_route (to_route rl))) in
  let missing := "No /verify_signature route found!" in
  let duplicate :=
    "Found " +:+ Py.str_int (len (verify_entries rules))
    +:+ " duplicate /verify_signature routes:" in
  (forall rl, verify_entries rules = [rl] -> "POST" ∈ CriticalFixes.methods rl ->
     check = ((header ++ exists_line rl
               ++ fst (CriticalFixes.print_pass "Route accepts POST method"))%list,
              Return true))
  /\ (forall rl, verify_entries rules = [rl] ->
        CriticalFixes.methods rl ∖ {["HEAD"; "OPTIONS"]} = {["GET"]} ->
        check = ((header ++ exists_line rl
                  ++ fst (CriticalFixes.print_fail "Route does not accept POST: GET"))%list,
                 Return false))
  /\ (verify_entries rules = [] ->
        check = ((header ++ fst (CriticalFixes.print_fail missing))%list, Return false))
  /\ (2 <= len (verify_entries rules) ->
        check = ((header ++ fst (CriticalFixes.print_fail duplicate)
                  ++ map (fun rl =>
                       Print ("  " +:+ BLUE +:+ "ℹ" +:+ END +:+ " "
                              +:+ ("  - " +:+ CriticalFixes.endpoint rl +:+ " "
                                   +:+ CriticalFixes.r_methods (to_route rl) +:+ " "
                                   +:+ CriticalFixes.rule rl)))
                       (verify_entries rules))%list,
                 Return false))
  /\ missing <> duplicate.
Proof.
  intros Himp Hrules check header exists_line missing duplicate.
  unfold check, CriticalFixes.test_no_duplicate_verify_signature.
  set (T := try_except _ _).
  assert (HT : T =
    match map to_route (verify_entries rules) with
    | [] => ([Print ("  " +:+ RED +:+ "✗" +:+ END +:+ " " +:+ missing)], Return false)
    | [r0] =>
        (Print ("  " +:+ GREEN +:+ "✓" +:+ END +:+ " "
                +:+ ("Only ONE /verify_signature route exists: "
                     +:+ CriticalFixes.str_route r0))
         :: (if Py.str_in "POST" (CriticalFixes.r_methods r0)
             then [Print ("  " +:+ GREEN +:+ "✓" +:+ END +:+ " " +:+ "Route accepts POST method")]
             else [Print ("  " +:+ RED +:+ "✗" +:+ END +:+ " "
                          +:+ ("Route does not accept POST: " +:+ CriticalFixes.r_methods r0))]),
         Return (Py.str_in "POST" (CriticalFixes.r_methods r0)))
    | _ :: _ :: _ =>
        (Print ("  " +:+ RED +:+ "✗" +:+ END +:+ " " +:+ duplicate)
         :: map (fun r => Print ("  " +:+ BLUE +:+ "ℹ" +:+ END +:+ " "
                                 +:+ ("  - " +:+ CriticalFixes.r_endpoint r +:+ " "
                                      +:+ CriticalFixes.r_methods r +:+ " "
                                      +:+ CriticalFixes.r_path r)))
              (map to_route (verify_entries rules)),
         Return false)
    end).
  { unfold T. rewrite Himp. unfold CriticalFixes.lift at 1. rewrite (bind_ret app).
    rewrite Hrules. unfold CriticalFixes.lift at 1. rewrite (bind_ret rules).
    rewrite routes_of_verify.
    assert (Hlen : len (map to_route (verify_entries rules)) = len (verify_entries rules))
      by (unfold len; now rewrite length_map).
    rewrite Hlen. fold duplicate.
    unfold CriticalFixes.print_pass, CriticalFixes.print_fail, CriticalFixes.print_info.
    destruct (map to_route (verify_entries rules)) as [|r0 [|r1 l]] eqn:E.
    - reflexivity.
    - rewrite bind_print.
      destruct (Py.str_in "POST" (CriticalFixes.r_methods r0)); reflexivity.
    - rewrite bind_print, for_each_print.
      cbn [bind ret fst snd try_except]. now rewrite app_nil_r. }
  unfold header, exists_line, CriticalFixes.print_test, CriticalFixes.print_pass,
    CriticalFixes.print_fail.
  rewrite bind_print, HT. clear HT T. cbn [fst snd print].
  split; [|split; [|split; [|split]]].
  - intros rl Hve Hpost. rewrite Hve. cbn [map].
    rewrite method_in_route by (assumption || discriminate). reflexivity.
  - intros rl Hve Hget. rewrite Hve. cbn [map].
    replace (CriticalFixes.r_methods (to_route rl)) with "GET"
      by (cbn [to_route CriticalFixes.r_methods]; rewrite Hget, elements_singleton;
          reflexivity).
    reflexivity.
  - intros Hve. rewrite Hve. reflexivity.
  - intros Hn. destruct (verify_entries rules) as [|a [|b l]].
    + unfold len in Hn. cbn [List.length] in Hn. lia.
    + unfold len in Hn. cbn [List.length] in Hn. lia.
    + cbn [map]. rewrite map_map. reflexivity.
  - discriminate.
Qed.

(** One POST route passes; one GET route exists and fails the method
    check. *)
Lemma C5_route_table_witness :
  CriticalFixes.test_no_duplicate_verify_signature
    (Examples.env_with [Examples.static_rule; Examples.post_rule])
  = ((fst (CriticalFixes.print_test "Issue #1: No duplicate /verify_signature routes")
      ++ fst (CriticalFixes.print_pass
                ("Only ONE /verify_signature route exists: "
                 +:+ CriticalFixes.str_route (to_route Examples.post_rule)))
      ++ fst (CriticalFixes.print_pass "Route accepts POST method"))%list,
     Return true)
  /\ CriticalFixes.test_no_duplicate_verify_signature
       (Examples.env_with [Examples.static_rule; Examples.get_rule])
     = ((fst (CriticalFixes.print_test "Issue #1: No duplicate /verify_signature routes")
         ++ fst (CriticalFixes.print_pass
                   ("Only ONE /verify_signature route exists: "
                    +:+ CriticalFixes.str_route (to_route Examples.get_rule)))
         ++ fst (CriticalFixes.print_fail "Route does not accept POST: GET"))%list,
        Return false).
Proof.
  destruct (C5_route_table (Examples.env_with [Examples.static_rule; Examples.post_rule])
              {| CriticalFixes.iter_rules := Return [Examples.static_rule; Examples.post_rule] |}
              [Examples.static_rule; Examples.post_rule] eq_refl eq_refl)
    as (Hpost & _).
  destruct (C5_route_table (Examples.env_with [Examples.static_rule; Examples.get_rule])
              {| CriticalFixes.iter_rules := Return [Examples.static_rule; Examples.get_rule] |}
              [Examples.static_rule; Examples.get_rule] eq_refl eq_refl)
    as (_ & Hget & _).
  split.
  - apply (Hpost Examples.post_rule); vm_compute; reflexivity.
  - apply (Hget Examples.get_rule); vm_compute; reflexivity.
Defined.

(** ** C9: the names exported by wsgi.py *)

(** Loading the module returns only after the import of the application. *)
Lemma load_imports (l : Wsgi.loader) (st : Wsgi.module_state) :
  Wsgi.load l = Return st -> exists a, Wsgi.import_app l = Return a.
Proof.
  unfold Wsgi.load. destruct (Wsgi.import_app l) as [a|e]; [eauto|discriminate].
Qed.

(** C9.  When the import of [app.app] gives the application object [a]
    (and, if the module is run as a script, once [a.run()] has returned),
    the module is loaded and both of its names [app] and [application] are
    bound to that one object [a]. *)
Theorem C9_app_and_application (l : Wsgi.loader) (a : Wsgi.obj) :
  Wsgi.import_app l = Return a ->
  (Wsgi.module_name l = "__main__" -> Wsgi.app_run l a = Return tt) ->
  exists st : Wsgi.module_state,
    Wsgi.load l = Return st
    /\ Wsgi.globals st !! "app" = Some (Wsgi.VObj a)
    /\ Wsgi.globals st !! "application" = Some (Wsgi.VObj a)
    /\ Wsgi.globals st !! "app" = Wsgi.globals st !! "application".
Proof.
  intros Himp Hrun. unfold Wsgi.load. rewrite Himp.
  assert (Hran : (if String.eqb (Wsgi.module_name l) "__main__"
                  then Wsgi.app_run l a else Return tt) = Return tt).
  { destruct (String.eqb_spec (Wsgi.module_name l) "__main__"); auto. }
  rewrite Hran. unfold Wsgi.name. rewrite lookup_insert_eq.
  eexists. split; [reflexivity|]. cbn [Wsgi.globals].
  assert (Happ : (<["application" := Wsgi.VObj a]>
                   (<["app" := Wsgi.VObj a]>
                     (<["BASE" := Wsgi.VStr (Wsgi.dirname l)]>
                       (<["sys" := Wsgi.VObj (Wsgi.sys_module l)]>
                         (<["os" := Wsgi.VObj (Wsgi.os_module l)]> ∅))))
                  : gmap string Wsgi.value) !! "app" = Some (Wsgi.VObj a)).
  { rewrite lookup_insert_ne by discriminate. apply lookup_insert_eq. }
  rewrite Happ, lookup_insert_eq. auto.
Qed.

(** The module imported by a process manager. *)
Lemma C9_app_and_application_witness :
  exists st : Wsgi.module_state,
    Wsgi.load Examples.imported_wsgi = Return st
    /\ Wsgi.globals st !! "app" = Some (Wsgi.VObj 3%positive)
    /\ Wsgi.globals st !! "application" = Some (Wsgi.VObj 3%positive).
Proof.
  destruct (C9_app_and_application Examples.imported_wsgi 3%positive)
    as (st & Hload & Happ & Happl & _).
  - reflexivity.
  - cbn. discriminate.
  - exists st. auto.
Defined.

(** ** C8: the evidence of the get_storage() check *)

(** C8 at two texts.  When the only call of get_storage() is on line 10,
    the check fails and prints the count, but no matching line at all.
    When the lines 1 to 4 each call get_storage(), it prints all four of
    them: the preview is bounded by the line number (below 10), not by a
    number of matches. *)
Theorem C8_evidence_is_bounded_by_line_number :
  StaticAnalysis.test_issue2_no_get_storage_calls
    (in_root (Examples.world_with (Some Examples.get_storage_on_line_10)))
  = ((fst (StaticAnalysis.test "Issue #2: No get_storage() calls in OAuth code")
      ++ fst (StaticAnalysis.fail "Found 1 get_storage() calls (should use db_storage)"))%list,
     Return false)
  /\ StaticAnalysis.test_issue2_no_get_storage_calls
       (in_root (Examples.world_with (Some Examples.get_storage_four_times)))
     = ((fst (StaticAnalysis.test "Issue #2: No get_storage() calls in OAuth code")
         ++ fst (StaticAnalysis.fail "Found 4 get_storage() calls (should use db_storage)")
         ++ fst (StaticAnalysis.info "  Line 1: a = get_storage()")
         ++ fst (StaticAnalysis.info "  Line 2: b = get_storage()")
         ++ fst (StaticAnalysis.info "  Line 3: c = get_storage()")
         ++ fst (StaticAnalysis.info "  Line 4: d = get_storage()"))%list,
        Return false).
Proof. split; vm_compute; reflexivity. Qed.

(** ** C6: the region of the /verify_signature handler *)

(** C6 at a text whose last declaration is the handler: the route
    declaration and the handler are there, the handler calls _finish_login,
    yet the pattern has no match, since its lookahead asks for a following
    declaration and has no case for the end of the text; the check prints
    that it could not find the function and returns [False].  With one more
    function after the handler, the region is found. *)
Theorem C6_no_region_for_last_declaration :
  Py.str_in "@app.route('/verify_signature')" Examples.handler_last = true
  /\ Py.str_in "def verify_signature():" Examples.handler_last = true
  /\ Py.str_in "_finish_login" Examples.handler_last = true
  /\ Re.search StaticAnalysis.verify_signature_pattern Examples.handler_last true = None
  /\ StaticAnalysis.test_issue1_finish_login_used
       (in_root (Examples.world_with (Some Examples.handler_last)))
     = ((fst (StaticAnalysis.test
                "Issue #1: verify_signature uses _finish_login for OAuth cookies")
         ++ fst (StaticAnalysis.fail "Could not find verify_signature function"))%list,
        Return false)
  /\ StaticAnalysis.test_issue1_finish_login_used
       (in_root (Examples.world_with (Some Examples.handler_followed)))
     = ((fst (StaticAnalysis.test
                "Issue #1: verify_signature uses _finish_login for OAuth cookies")
         ++ fst (StaticAnalysis.ok "verify_signature calls _finish_login (correct)"))%list,
        Return true).
Proof. repeat split; vm_compute; reflexivity. Qed.

(** * Further properties of the code *)

Import Cover.

(** ** The matcher *)

Lemma strip_prefix_startswith (p s : string) :
  Py.startswith s p = true <-> exists rest, strip_prefix p s = Some rest.
Proof.
  revert s. induction p as [|a p IH]; intros s.
  - destruct s; cbn; split; eauto.
  - destruct s as [|b s]; cbn [Py.startswith strip_prefix].
    + split; [discriminate|intros [? ?]; discriminate].
    + destruct (Ascii.eqb a b); [apply IH|].
      split; [discriminate|intros [? ?]; discriminate].
Qed.

Lemma strip_prefix_none (p s : string) :
  Py.startswith s p = false <-> strip_prefix p s = None.
Proof.
  pose proof (strip_prefix_startswith p s) as H.
  destruct (Py.startswith s p), (strip_prefix p s) as [rest|];
    split; intros; try congruence.
  - destruct H as [H _]. destruct (H eq_refl). congruence.
  - destruct H as [_ H]. assert (false = true) by (apply H; eauto). congruence.
Qed.

Lemma append_cons (c : ascii) (a b : string) :
  String c a +:+ b = String c (a +:+ b).
Proof. reflexivity. Qed.

Lemma strip_prefix_app (p s rest : string) :
  strip_prefix p s = Some rest -> s = p +:+ rest.
Proof.
  revert s. induction p as [|a p IH]; intros s H.
  - destruct s; cbn in H; now inversion H.
  - destruct s as [|b s]; cbn [strip_prefix] in H; [discriminate|].
    destruct (Ascii.eqb_spec a b) as [->|]; [|discriminate].
    rewrite append_cons. f_equal. now apply IH.
Qed.

(** A literal matches exactly when the text starts with it, and goes on
    after it. *)
Lemma rmatch_lit (d : bool) (p s : string) (g : option string) k :
  Re.rmatch d (Re.lit p) s g k
  = match strip_prefix p s with
    | Some rest => k rest g
    | None => None
    end.
Proof.
  revert s. induction p as [|a p IH]; intros s.
  - now destruct s.
  - destruct p as [|a' p'].
    + cbn [Re.lit Re.rmatch Re.cset_mem]. destruct s as [|b s]; [reflexivity|].
      cbn [strip_prefix]. destruct (Ascii.eqb a b); [|reflexivity]. now destruct s.
    + change (Re.lit (String a (String a' p')))
        with (Re.RSeq (Re.RChar (Re.CChar a)) (Re.lit (String a' p'))).
      cbn [Re.rmatch Re.cset_mem]. destruct s as [|b s]; [reflexivity|].
      cbn [strip_prefix]. destruct (Ascii.eqb a b); [apply IH|reflexivity].
Qed.

Lemma is_suffix_refl (s : string) : is_suffix s s.
Proof. now exists "". Qed.

Lemma is_suffix_cons (c : ascii) (t s : string) : is_suffix t s -> is_suffix t (String c s).
Proof. intros [p ->]. now exists (String c p). Qed.

Lemma append_assoc (a b c : string) : (a +:+ b) +:+ c = a +:+ (b +:+ c).
Proof. induction a as [|x a IH]; [reflexivity|]. rewrite !append_cons. now rewrite IH. Qed.

Lemma is_suffix_trans (a b c : string) : is_suffix a b -> is_suffix b c -> is_suffix a c.
Proof. intros [p ->] [q ->]. exists (q +:+ p). now rewrite append_assoc. Qed.

Lemma is_suffix_tail (c : ascii) (s : string) : is_suffix s (String c s).
Proof. now exists (String c ""). Qed.

Lemma is_suffix_inv (t : string) (c : ascii) (s : string) :
  is_suffix t (String c s) -> t = String c s \/ is_suffix t s.
Proof.
  intros [[|a p] H].
  - now left.
  - right. rewrite append_cons in H. inversion H. now exists p.
Qed.

(** A pattern fails when what follows it fails on every rest of the
    text. *)
Lemma rmatch_fails (d : bool) (r : Re.regex) (s : string) (g : option string) k :
  (forall t g', is_suffix t s -> k t g' = None) ->
  Re.rmatch d r s g k = None.
Proof.
  revert s g k. induction r as [c|r1 IH1 r2 IH2|r1 IH1 r2 IH2|c|c|r IH|r IH|];
    intros s g k Hk; cbn [Re.rmatch].
  - destruct s as [|a s]; [reflexivity|]. destruct (Re.cset_mem d c a); [|reflexivity].
    apply Hk, is_suffix_tail.
  - apply IH1. intros t g' Ht. apply IH2. intros t' g'' Ht'.
    apply Hk. eapply is_suffix_trans; eassumption.
  - rewrite IH1 by assumption. now apply IH2.
  - induction s as [|a s IHs]; cbn [Re.lazy_star].
    + now rewrite Hk by apply is_suffix_refl.
    + rewrite Hk by apply is_suffix_refl.
      destruct (Re.cset_mem d c a); [|reflexivity].
      apply IHs. intros t g' Ht. now apply Hk, is_suffix_cons.
  - destruct s as [|a s]; [reflexivity|]. destruct (Re.cset_mem d c a); [|reflexivity].
    assert (Hk' : forall t g', is_suffix t s -> k t g' = None)
      by (intros t g' Ht; now apply Hk, is_suffix_cons).
    clear Hk. induction s as [|b s IHs]; cbn [Re.greedy_star].
    + apply Hk', is_suffix_refl.
    + destruct (Re.cset_mem d c b).
      * rewrite IHs by (intros t g' Ht; now apply Hk', is_suffix_cons).
        apply Hk', is_suffix_refl.
      * apply Hk', is_suffix_refl.
  - apply IH. intros t g' Ht. now apply Hk.
  - destruct (Re.rmatch d r s g _) as [[? g']|]; [|reflexivity].
    apply Hk, is_suffix_refl.
  - apply Hk, is_suffix_refl.
Qed.

(** [re.search] finds nothing when the pattern matches at no offset. *)
Lemma search_none (d : bool) (r : Re.regex) (s : string) :
  (forall t, is_suffix t s -> Re.match_here d r t = None) ->
  Re.search r s d = None.
Proof.
  unfold Re.search. generalize 0%nat.
  induction s as [|a s IH]; intros pos H; cbn [Re.search_from].
  - now rewrite H by apply is_suffix_refl.
  - rewrite H by apply is_suffix_refl. apply IH.
    intros t Ht. now apply H, is_suffix_cons.
Qed.

Lemma str_in_suffix (p t s : string) :
  Py.str_in p s = false -> is_suffix t s -> Py.startswith t p = false.
Proof.
  intros Hin [q ->]. induction q as [|c q IH].
  - change ("" +:+ t) with t in Hin. destruct t; cbn [Py.str_in] in Hin;
      now apply orb_false_iff in Hin as [? _].
  - apply IH. rewrite append_cons in Hin.
    cbn [Py.str_in] in Hin. now apply orb_false_iff in Hin as [_ ?].
Qed.

Lemma rmatch_seq_fails (d : bool) (r1 r2 : Re.regex) (s : string) (g : option string) k :
  (forall t g', is_suffix t s -> Re.rmatch d r2 t g' k = None) ->
  Re.rmatch d (Re.RSeq r1 r2) s g k = None.
Proof. intros H. cbn [Re.rmatch]. now apply rmatch_fails. Qed.

Lemma rmatch_seq (d : bool) (r1 r2 : Re.regex) (s : string) (g : option string) k :
  Re.rmatch d (Re.RSeq r1 r2) s g k
  = Re.rmatch d r1 s g (fun s' g' => Re.rmatch d r2 s' g' k).
Proof. reflexivity. Qed.

Lemma rmatch_lookahead_fails (d : bool) (r : Re.regex) (s : string) (g : option string) k :
  Re.rmatch d r s g (fun s' g' => Some (s', g')) = None ->
  Re.rmatch d (Re.RLookahead r) s g k = None.
Proof. intros H. cbn [Re.rmatch]. now rewrite H. Qed.

Lemma rmatch_alt (d : bool) (r1 r2 : Re.regex) (s : string) (g : option string) k :
  Re.rmatch d (Re.RAlt r1 r2) s g k
  = match Re.rmatch d r1 s g k with
    | Some m => Some m
    | None => Re.rmatch d r2 s g k
    end.
Proof. reflexivity. Qed.

Lemma rmatch_lookahead (d : bool) (r : Re.regex) (s : string) (g : option string) k :
  Re.rmatch d (Re.RLookahead r) s g k
  = match Re.rmatch d r s g (fun s' g' => Some (s', g')) with
    | Some (_, g') => k s g'
    | None => None
    end.
Proof. reflexivity. Qed.

Lemma rmatch_eps (d : bool) (s : string) (g : option string) k :
  Re.rmatch d Re.REps s g k = k s g.
Proof. reflexivity. Qed.

Lemma rmatch_plus (d : bool) (c : Re.cset) (s : string) (g : option string) k :
  Re.rmatch d (Re.RPlus c) s g k
  = match s with
    | String a s' => if Re.cset_mem d c a then Re.greedy_star d c g k s' else None
    | "" => None
    end.
Proof. reflexivity. Qed.

(** ** The handler of /verify_signature as the last declaration *)

Lemma handler_is_last_suffix (t s : string) :
  handler_is_last s = true -> is_suffix t s -> handler_is_last t = true.
Proof.
  intros H [p ->]. induction p as [|c p IH]; [exact H|].
  apply IH. rewrite append_cons in H. cbn [handler_is_last] in H.
  now apply andb_true_iff in H as [_ H].
Qed.

Lemma handler_is_last_rest (t rest : string) :
  handler_is_last t = true ->
  strip_prefix "def verify_signature():" t = Some rest ->
  no_boundary rest = true.
Proof.
  intros H E. destruct t; cbn [handler_is_last] in H; rewrite E in H;
    now apply andb_true_iff in H as [H _].
Qed.

Lemma no_boundary_suffix (t rest : string) :
  no_boundary rest = true -> is_suffix t rest -> boundary_at t = false.
Proof.
  intros H [p ->]. induction p as [|c p IH].
  - change ("" +:+ t) with t in H. destruct t; cbn [no_boundary] in H;
      apply andb_true_iff in H as [H _]; now apply negb_true_iff in H.
  - apply IH. rewrite append_cons in H. cbn [no_boundary] in H.
    now apply andb_true_iff in H as [_ H].
Qed.

(** A name that is not followed by an opening parenthesis: the greedy
    repetition gives its characters back one by one, and none of them is a
    parenthesis. *)
Lemma greedy_star_paren (d : bool) (r : Re.regex) (s : string) (g : option string) k :
  Py.startswith (skip_word s) "(" = false ->
  Re.greedy_star d Re.CWord g
    (fun s' g' => Re.rmatch d (Re.RSeq (Re.lit "(") r) s' g' k) s = None.
Proof.
  intros H. induction s as [|a s IH]; cbn [Re.greedy_star Re.cset_mem].
  - reflexivity.
  - cbn [skip_word] in H. destruct (Re.is_word a) eqn:Ha.
    + rewrite (IH H). rewrite rmatch_seq, rmatch_lit. cbn [strip_prefix].
      destruct (Ascii.eqb_spec "("%char a) as [<-|_]; [discriminate Ha|reflexivity].
    + rewrite rmatch_seq, rmatch_lit.
      apply strip_prefix_none in H. now rewrite H.
Qed.

(** The lookahead of the handler pattern fails where there is no
    boundary. *)
Lemma no_boundary_lookahead (rest t : string) (g : option string) k :
  no_boundary rest = true -> is_suffix t rest ->
  Re.rmatch true
    (Re.RAlt (Re.lit (Py.nl +:+ "@app.route"))
       (Re.RAlt (StaticAnalysis.seq [Re.lit (Py.nl +:+ "def "); Re.RPlus Re.CWord; Re.lit "("])
                (StaticAnalysis.seq [Re.lit (Py.nl +:+ "class "); Re.RPlus Re.CWord])))
    t g k = None.
Proof.
  intros Hb Ht. pose proof (no_boundary_suffix t rest Hb Ht) as H.
  unfold boundary_at in H.
  apply orb_false_iff in H as [H H3]. apply orb_false_iff in H as [H1 H2].
  apply strip_prefix_none in H1.
  unfold StaticAnalysis.seq. cbn [foldr fold_right].
  rewrite rmatch_alt, rmatch_lit, H1.
  rewrite rmatch_alt, rmatch_seq, rmatch_lit.
  assert (E2 : match strip_prefix (Py.nl +:+ "def ") t with
               | Some rest0 =>
                   Re.rmatch true
                     (Re.RSeq (Re.RPlus Re.CWord) (Re.RSeq (Re.lit "(") Re.REps)) rest0 g k
               | None => None
               end = None).
  { destruct (strip_prefix (Py.nl +:+ "def ") t) as [[|c r]|]; try reflexivity.
    rewrite rmatch_seq, rmatch_plus. cbn [Re.cset_mem].
    destruct (Re.is_word c); [|reflexivity].
    cbn [andb] in H2. now apply greedy_star_paren. }
  rewrite E2. rewrite rmatch_seq, rmatch_lit.
  destruct (strip_prefix (Py.nl +:+ "class ") t) as [[|c r]|]; try reflexivity.
  rewrite rmatch_seq, rmatch_plus. cbn [Re.cset_mem]. now rewrite H3.
Qed.

Lemma handler_is_last_no_match (source : string) :
  handler_is_last source = true ->
  Re.search StaticAnalysis.verify_signature_pattern source true = None.
Proof.
  intros Hlast. apply search_none. intros t0 Ht0.
  unfold Re.match_here, StaticAnalysis.verify_signature_pattern, StaticAnalysis.seq.
  cbn [foldr fold_right].
  do 6 (apply rmatch_seq_fails; intros ? ? ?).
  rewrite rmatch_seq, rmatch_lit.
  destruct (strip_prefix "def verify_signature():" t5) as [rest|] eqn:E; [|reflexivity].
  assert (Hrest : no_boundary rest = true).
  { apply (handler_is_last_rest t5); [|exact E].
    apply (handler_is_last_suffix t5 source Hlast).
    repeat (eapply is_suffix_trans; [eassumption|]). apply is_suffix_refl. }
  apply rmatch_seq_fails. intros t6 g6 Ht6. rewrite rmatch_seq.
  apply rmatch_lookahead_fails. now apply (no_boundary_lookahead rest t6).
Qed.

(** X1.  When the handler of /verify_signature is the last declaration of
    [app/app.py] (after each occurrence of its header no later line starts
    a route, a function or a class), the check of _finish_login does not
    find the handler: it prints that it could not find the function and
    returns [False], whatever the handler calls. *)
Theorem X1_last_handler_is_not_found (w : world) (source : string) :
  StaticAnalysis.read_file w "app/app.py" = ret source ->
  handler_is_last source = true ->
  StaticAnalysis.test_issue1_finish_login_used w
  = ((fst (StaticAnalysis.test
             "Issue #1: verify_signature uses _finish_login for OAuth cookies")
      ++ fst (StaticAnalysis.fail "Could not find verify_signature function"))%list,
     Return false).
Proof.
  intros Hread Hlast. unfold StaticAnalysis.test_issue1_finish_login_used.
  unfold StaticAnalysis.test at 1. rewrite bind_print, Hread, bind_ret.
  rewrite (handler_is_last_no_match source Hlast). reflexivity.
Qed.

Lemma X1_last_handler_is_not_found_witness :
  StaticAnalysis.test_issue1_finish_login_used
    (in_root (Examples.world_with (Some handler_last_with_docstring)))
  = ((fst (StaticAnalysis.test
             "Issue #1: verify_signature uses _finish_login for OAuth cookies")
      ++ fst (StaticAnalysis.fail "Could not find verify_signature function"))%list,
     Return false).
Proof.
  apply (X1_last_handler_is_not_found _ handler_last_with_docstring).
  - vm_compute. reflexivity.
  - vm_compute. reflexivity.
Defined.

(** ** The get_storage() check *)

Lemma match_here_lit (d : bool) (p s : string) :
  Re.match_here d (Re.lit p) s
  = match strip_prefix p s with
    | Some rest => Some (rest, None)
    | None => None
    end.
Proof. unfold Re.match_here. now rewrite rmatch_lit. Qed.

(** A literal has no match in a text exactly when it does not occur in
    it. *)
Lemma finditer_lit_nil (p s : string) (pos : nat) :
  Re.finditer_from (Re.lit p) pos 0 s = [] <-> Py.str_in p s = false.
Proof.
  revert pos. induction s as [|c s IH]; intros pos;
    cbn [Re.finditer_from Py.str_in]; rewrite match_here_lit.
  - destruct (strip_prefix p "") as [rest|] eqn:E.
    + assert (Py.startswith "" p = true) as -> by (apply strip_prefix_startswith; eauto).
      split; discriminate.
    + apply strip_prefix_none in E. rewrite E. split; reflexivity.
  - destruct (strip_prefix p (String c s)) as [rest|] eqn:E.
    + assert (Py.startswith (String c s) p = true) as ->
        by (apply strip_prefix_startswith; eauto).
      split; discriminate.
    + apply strip_prefix_none in E. rewrite E. cbn [orb]. apply IH.
Qed.

Lemma findall_lit_count (p s : string) :
  (len (Re.findall (Re.lit p) s) =? 0) = negb (Py.str_in p s).
Proof.
  unfold Re.findall, Re.finditer, len. rewrite length_map.
  pose proof (finditer_lit_nil p s 0) as H.
  destruct (Re.finditer_from (Re.lit p) 0 0 s) as [|m l].
  - destruct H as [H _]. now rewrite (H eq_refl).
  - destruct (Py.str_in p s); [reflexivity|].
    destruct H as [_ H]. discriminate (H eq_refl).
Qed.

(** X2.  The get_storage() check returns [True] exactly when the text of
    [app/app.py] has no occurrence of [get_storage()]: the count of the
    matches of the pattern is zero exactly for these texts. *)
Theorem X2_get_storage_check_passes_iff_absent (w : world) (source : string) :
  StaticAnalysis.read_file w "app/app.py" = ret source ->
  snd (StaticAnalysis.test_issue2_no_get_storage_calls w)
  = Return (negb (Py.str_in "get_storage()" source)).
Proof.
  intros Hread. unfold StaticAnalysis.test_issue2_no_get_storage_calls.
  unfold StaticAnalysis.test at 1. rewrite bind_print, Hread, bind_ret. cbn [snd].
  rewrite findall_lit_count.
  destruct (Py.str_in "get_storage()" source); cbn [negb].
  - unfold StaticAnalysis.fail. rewrite bind_print. cbn [snd].
    rewrite bind_unit; [reflexivity|].
    apply for_each_returns. intros [i line].
    now destruct (_ && _).
  - reflexivity.
Qed.

Lemma X2_get_storage_check_passes_iff_absent_witness :
  snd (StaticAnalysis.test_issue2_no_get_storage_calls
         (in_root (Examples.world_with (Some Examples.get_storage_on_line_10))))
  = Return false.
Proof.
  apply (X2_get_storage_check_passes_iff_absent _ Examples.get_storage_on_line_10).
  vm_compute. reflexivity.
Defined.

Lemma storage_evidence_loop (lines : list string) (k : Z) :
  for_each (Py.enumerate lines k) (fun '(i, line) =>
    if Py.str_in "get_storage()" line && (i <? 10) then
      StaticAnalysis.info ("  Line " +:+ Py.str_int i +:+ ": " +:+ Py.strip line)
    else ret tt)
  = (storage_evidence (take (Z.to_nat (10 - k)) lines) k, Return tt).
Proof.
  revert k. induction lines as [|line lines IH]; intros k.
  - now rewrite take_nil.
  - cbn [Py.enumerate for_each]. rewrite IH.
    destruct (Z.ltb_spec k 10) as [Hk|Hk].
    + replace (Z.to_nat (10 - k)) with (S (Z.to_nat (10 - (k + 1)))) by lia.
      cbn [take]. unfold storage_evidence. cbn [Py.enumerate flat_map].
      rewrite andb_true_r.
      destruct (Py.str_in "get_storage()" line).
      * unfold StaticAnalysis.info. now rewrite bind_print.
      * now rewrite bind_ret.
    + replace (Z.to_nat (10 - k)) with 0%nat by lia.
      replace (Z.to_nat (10 - (k + 1))) with 0%nat by lia.
      rewrite andb_false_r, bind_ret. now rewrite !take_0.
Qed.

(** X3.  When [get_storage()] occurs in [app/app.py], the check prints the
    number of matches and then, as evidence, every line among the first
    nine lines of the file that has an occurrence, and no other line: a
    match from line 10 on is counted and never shown. *)
Theorem X3_get_storage_evidence (w : world) (source : string) :
  StaticAnalysis.read_file w "app/app.py" = ret source ->
  Py.str_in "get_storage()" source = true ->
  StaticAnalysis.test_issue2_no_get_storage_calls w
  = ((fst (StaticAnalysis.test "Issue #2: No get_storage() calls in OAuth code")
      ++ fst (StaticAnalysis.fail
                ("Found " +:+ Py.str_int (len (Re.findall (Re.lit "get_storage()") source))
                 +:+ " get_storage() calls (should use db_storage)"))
      ++ storage_evidence (take 9 (Py.split Py.newline source)) 1)%list,
     Return false).
Proof.
  intros Hread Hin. unfold StaticAnalysis.test_issue2_no_get_storage_calls.
  unfold StaticAnalysis.test at 1. rewrite bind_print, Hread, bind_ret.
  rewrite findall_lit_count, Hin. cbn [negb].
  unfold StaticAnalysis.fail at 1. rewrite bind_print.
  rewrite storage_evidence_loop. cbn [bind ret fst snd Z.sub].
  now rewrite app_nil_r.
Qed.

Lemma X3_get_storage_evidence_witness :
  StaticAnalysis.test_issue2_no_get_storage_calls
    (in_root (Examples.world_with (Some Examples.get_storage_on_line_10)))
  = ((fst (StaticAnalysis.test "Issue #2: No get_storage() calls in OAuth code")
      ++ fst (StaticAnalysis.fail
                ("Found " +:+ Py.str_int
                   (len (Re.findall (Re.lit "get_storage()") Examples.get_storage_on_line_10))
                 +:+ " get_storage() calls (should use db_storage)"))
      ++ storage_evidence (take 9 (Py.split Py.newline Examples.get_storage_on_line_10)) 1)%list,
     Return false).
Proof.
  apply (X3_get_storage_evidence _ Examples.get_storage_on_line_10).
  - vm_compute. reflexivity.
  - vm_compute. reflexivity.
Defined.

(** ** A decorator that is directly followed by its function *)

Lemma consumed_nothing (s : string) : Re.consumed s s = "".
Proof. unfold Re.consumed. rewrite Nat.sub_diag. now destruct s. Qed.

(** [\w+] followed by what matches at the first character that is not a
    word character. *)
Lemma greedy_star_word (d : bool) (n : string) (c : ascii) (s : string)
    (g : option string) k (m : Re.mstate) :
  forallb Re.is_word (list_ascii_of_string n) = true ->
  Re.is_word c = false ->
  k (String c s) g = Some m ->
  Re.greedy_star d Re.CWord g k (n +:+ String c s) = Some m.
Proof.
  intros Hn Hc Hk. induction n as [|a n IH].
  - change ("" +:+ String c s) with (String c s).
    cbn [Re.greedy_star Re.cset_mem]. now rewrite Hc.
  - rewrite append_cons. cbn [list_ascii_of_string forallb] in Hn.
    apply andb_true_iff in Hn as [Ha Hn].
    cbn [Re.greedy_star Re.cset_mem]. rewrite Ha. now rewrite IH.
Qed.

Lemma plus_word (d : bool) (n : string) (c : ascii) (s : string)
    (g : option string) k (m : Re.mstate) :
  n <> "" ->
  forallb Re.is_word (list_ascii_of_string n) = true ->
  Re.is_word c = false ->
  k (String c s) g = Some m ->
  Re.rmatch d (Re.RPlus Re.CWord) (n +:+ String c s) g k = Some m.
Proof.
  intros Hne Hn Hc Hk. destruct n as [|a n]; [congruence|].
  rewrite append_cons. cbn [list_ascii_of_string forallb] in Hn.
  apply andb_true_iff in Hn as [Ha Hn].
  cbn [Re.rmatch Re.cset_mem]. rewrite Ha. now apply greedy_star_word.
Qed.

(** The search passes a text without the first character of the
    pattern. *)
Lemma search_from_skip (d : bool) (c : ascii) (p : string) (r : Re.regex)
    (pre s : string) (pos : nat) :
  Py.has_char c pre = false ->
  Re.search_from d (Re.RSeq (Re.lit (String c p)) r) pos (pre +:+ s)
  = Re.search_from d (Re.RSeq (Re.lit (String c p)) r) (pos + String.length pre) s.
Proof.
  revert pos. induction pre as [|a pre IH]; intros pos Hc.
  - change ("" +:+ s) with s. cbn [String.length]. now rewrite Nat.add_0_r.
  - rewrite append_cons. unfold Py.has_char in Hc. cbn [list_ascii_of_string existsb] in Hc.
    apply orb_false_iff in Hc as [Ha Hc].
    cbn [Re.search_from]. unfold Re.match_here at 1.
    rewrite rmatch_seq, rmatch_lit. cbn [strip_prefix]. rewrite Ha.
    rewrite IH by exact Hc. cbn [String.length]. f_equal. lia.
Qed.

Lemma quote_single (d : bool) (s : string) (g : option string) k :
  Re.rmatch d StaticAnalysis.quote (String "'"%char s) g k = k s g.
Proof. reflexivity. Qed.

Lemma strip_prefix_here (p s : string) : strip_prefix p (p +:+ s) = Some s.
Proof.
  induction p as [|a p IH]; [now destruct s|].
  rewrite append_cons. cbn [strip_prefix]. now rewrite Ascii.eqb_refl.
Qed.

(** The /chat pattern at a decorator that is directly followed by the
    header of its function: the captured region is empty. *)
Lemma chat_route_match (name rest : string) :
  name <> "" ->
  forallb Re.is_word (list_ascii_of_string name) = true ->
  let tail := Py.nl +:+ ("def " +:+ (name +:+ String "("%char rest)) in
  Re.match_here true StaticAnalysis.chat_route_pattern
    ("@app.route(" +:+ String "'"%char ("/chat" +:+ String "'"%char (")" +:+ tail)))
  = Some (tail, Some "").
Proof.
  intros Hne Hn tail.
  unfold Re.match_here, StaticAnalysis.chat_route_pattern, StaticAnalysis.seq.
  cbn [foldr fold_right].
  rewrite rmatch_seq, rmatch_lit, strip_prefix_here.
  rewrite rmatch_seq, quote_single.
  rewrite rmatch_seq, rmatch_lit, strip_prefix_here.
  rewrite rmatch_seq, quote_single.
  rewrite rmatch_seq, rmatch_lit, strip_prefix_here.
  rewrite rmatch_seq.
  change (Re.rmatch true (Re.RGroup (Re.RLazyStar Re.CDot)) tail None ?k)
    with (Re.lazy_star true Re.CDot None
            (fun s' _ => k s' (Some (Re.consumed tail s'))) tail).
  assert (Hk : Re.rmatch true
                 (Re.RSeq
                    (Re.RLookahead
                       (Re.RAlt (Re.lit (Py.nl +:+ "@app.route"))
                          (Re.RSeq (Re.lit (Py.nl +:+ "def "))
                             (Re.RSeq (Re.RPlus Re.CWord) (Re.RSeq (Re.lit "(") Re.REps)))))
                    Re.REps)
                 tail (Some (Re.consumed tail tail))
                 (fun s' g => Some (s', g))
               = Some (tail, Some "")).
  { rewrite rmatch_seq, rmatch_lookahead, rmatch_alt, rmatch_lit.
    assert (strip_prefix (Py.nl +:+ "@app.route") tail = None) as -> by reflexivity.
    rewrite rmatch_seq, rmatch_lit.
    assert (strip_prefix (Py.nl +:+ "def ") tail = Some (name +:+ String "("%char rest))
      as -> by reflexivity.
    rewrite rmatch_seq.
    rewrite (plus_word true name "("%char rest _ _ (rest, Some (Re.consumed tail tail)));
      try assumption; try reflexivity.
    now rewrite rmatch_eps, consumed_nothing. }
  destruct tail eqn:Et; [discriminate|].
  cbn [Re.lazy_star]. rewrite <- Et in *. now rewrite Hk.
Qed.

Lemma search_from_here (d : bool) (r : Re.regex) (pos : nat) (s rest : string)
    (g : option string) :
  Re.match_here d r s = Some (rest, g) ->
  Re.search_from d r pos s
  = Some {| Re.start := pos; Re.group0 := Re.consumed s rest; Re.group1 := g |}.
Proof. intros H. destruct s; cbn [Re.search_from]; now rewrite H. Qed.

(** X4.  In a text whose first [@] begins the decorator
    [@app.route('/chat')], directly followed by the line of its function
    header [def name(], the region that the /chat check inspects is empty:
    the check fails with the message that the route does not use
    get_chat_history(), whatever the body of the function is. *)
Theorem X4_chat_route_region_is_empty (w : world) (pre name rest : string) :
  StaticAnalysis.read_file w "app/app.py"
  = ret (pre +:+ "@app.route('/chat')" +:+ Py.nl +:+ "def " +:+ name +:+ "(" +:+ rest) ->
  Py.has_char "@"%char pre = false ->
  name <> "" ->
  forallb Re.is_word (list_ascii_of_string name) = true ->
  StaticAnalysis.test_issue3_get_chat_history_used w
  = ((fst (StaticAnalysis.test "Issue #3: Uses get_chat_history() instead of direct access")
      ++ fst (StaticAnalysis.fail "/chat route does NOT use get_chat_history()"))%list,
     Return false).
Proof.
  intros Hread Hpre Hne Hname.
  unfold StaticAnalysis.test_issue3_get_chat_history_used.
  unfold StaticAnalysis.test at 1. rewrite bind_print, Hread, bind_ret.
  unfold Re.search, StaticAnalysis.chat_route_pattern, StaticAnalysis.seq.
  cbn [foldr fold_right].
  rewrite search_from_skip by exact Hpre.
  pose proof (chat_route_match name rest Hne Hname) as Hm. cbv zeta in Hm.
  unfold StaticAnalysis.chat_route_pattern, StaticAnalysis.seq in Hm.
  cbn [foldr fold_right] in Hm.
  erewrite search_from_here by exact Hm.
  reflexivity.
Qed.

Lemma X4_chat_route_region_is_empty_witness :
  StaticAnalysis.test_issue3_get_chat_history_used
    (in_root (Examples.world_with
       (Some ("import os" +:+ Py.nl +:+ "@app.route('/chat')" +:+ Py.nl +:+ "def " +:+ "chat"
              +:+ "(" +:+ "):" +:+ Py.nl +:+ "    return render(history=get_chat_history())"))))
  = ((fst (StaticAnalysis.test "Issue #3: Uses get_chat_history() instead of direct access")
      ++ fst (StaticAnalysis.fail "/chat route does NOT use get_chat_history()"))%list,
     Return false).
Proof.
  apply (X4_chat_route_region_is_empty _ ("import os" +:+ Py.nl) "chat"
           ("):" +:+ Py.nl +:+ "    return render(history=get_chat_history())")).
  - vm_compute. reflexivity.
  - reflexivity.
  - discriminate.
  - reflexivity.
Defined.

(** The message-handler pattern at a decorator that is directly followed by
    the header of its function: the captured region is empty. *)
Lemma message_handler_match (name rest : string) :
  name <> "" ->
  forallb Re.is_word (list_ascii_of_string name) = true ->
  let tail := Py.nl +:+ ("def " +:+ (name +:+ String "("%char rest)) in
  Re.match_here true StaticAnalysis.message_handler_pattern
    ("@socketio.on(" +:+ String "'"%char ("message" +:+ String "'"%char (")" +:+ tail)))
  = Some (tail, Some "").
Proof.
  intros Hne Hn tail.
  unfold Re.match_here, StaticAnalysis.message_handler_pattern, StaticAnalysis.seq.
  cbn [foldr fold_right].
  rewrite rmatch_seq, rmatch_lit, strip_prefix_here.
  rewrite rmatch_seq, quote_single.
  rewrite rmatch_seq, rmatch_lit, strip_prefix_here.
  rewrite rmatch_seq, quote_single.
  rewrite rmatch_seq, rmatch_lit, strip_prefix_here.
  rewrite rmatch_seq.
  change (Re.rmatch true (Re.RGroup (Re.RLazyStar Re.CDot)) tail None ?k)
    with (Re.lazy_star true Re.CDot None
            (fun s' _ => k s' (Some (Re.consumed tail s'))) tail).
  assert (Hk : Re.rmatch true
                 (Re.RSeq
                    (Re.RLookahead
                       (Re.RAlt (Re.lit (Py.nl +:+ "@socketio.on"))
                          (Re.RAlt (Re.lit (Py.nl +:+ "@app.route"))
                             (Re.RSeq (Re.lit (Py.nl +:+ "def "))
                                (Re.RSeq (Re.RPlus Re.CWord) (Re.RSeq (Re.lit "(") Re.REps))))))
                    Re.REps)
                 tail (Some (Re.consumed tail tail))
                 (fun s' g => Some (s', g))
               = Some (tail, Some "")).
  { rewrite rmatch_seq, rmatch_lookahead, rmatch_alt, rmatch_lit.
    assert (strip_prefix (Py.nl +:+ "@socketio.on") tail = None) as -> by reflexivity.
    rewrite rmatch_alt, rmatch_lit.
    assert (strip_prefix (Py.nl +:+ "@app.route") tail = None) as -> by reflexivity.
    rewrite rmatch_seq, rmatch_lit.
    assert (strip_prefix (Py.nl +:+ "def ") tail = Some (name +:+ String "("%char rest))
      as -> by reflexivity.
    rewrite rmatch_seq.
    rewrite (plus_word true name "("%char rest _ _ (rest, Some (Re.consumed tail tail)));
      try assumption; try reflexivity.
    now rewrite rmatch_eps, consumed_nothing. }
  destruct tail eqn:Et; [discriminate|].
  cbn [Re.lazy_star]. rewrite <- Et in *. now rewrite Hk.
Qed.

(** X5.  In a text whose first [@] begins the decorator
    [@socketio.on('message')], directly followed by the line of its function
    header [def name(], the region that the message-handler check inspects
    is empty: the check fails with the message that the handler does not
    use add_chat_message(), whatever the body of the handler is. *)
Theorem X5_message_handler_region_is_empty (w : world) (pre name rest : string) :
  StaticAnalysis.read_file w "app/app.py"
  = ret (pre +:+ "@socketio.on('message')" +:+ Py.nl +:+ "def " +:+ name +:+ "(" +:+ rest) ->
  Py.has_char "@"%char pre = false ->
  name <> "" ->
  forallb Re.is_word (list_ascii_of_string name) = true ->
  StaticAnalysis.test_issue3_add_chat_message_used w
  = ((fst (StaticAnalysis.test "Issue #3: WebSocket handler uses add_chat_message()")
      ++ fst (StaticAnalysis.fail "Message handler does NOT use add_chat_message()"))%list,
     Return false).
Proof.
  intros Hread Hpre Hne Hname.
  unfold StaticAnalysis.test_issue3_add_chat_message_used.
  unfold StaticAnalysis.test at 1. rewrite bind_print, Hread, bind_ret.
  unfold Re.search, StaticAnalysis.message_handler_pattern, StaticAnalysis.seq.
  cbn [foldr fold_right].
  rewrite search_from_skip by exact Hpre.
  pose proof (message_handler_match name rest Hne Hname) as Hm. cbv zeta in Hm.
  unfold StaticAnalysis.message_handler_pattern, StaticAnalysis.seq in Hm.
  cbn [foldr fold_right] in Hm.
  erewrite search_from_here by exact Hm.
  reflexivity.
Qed.

Lemma X5_message_handler_region_is_empty_witness :
  StaticAnalysis.test_issue3_add_chat_message_used
    (in_root (Examples.world_with
       (Some ("import os" +:+ Py.nl +:+ "@socketio.on('message')" +:+ Py.nl +:+ "def "
              +:+ "handle_message" +:+ "(" +:+ "msg):" +:+ Py.nl
              +:+ "    add_chat_message(msg)"))))
  = ((fst (StaticAnalysis.test "Issue #3: WebSocket handler uses add_chat_message()")
      ++ fst (StaticAnalysis.fail "Message handler does NOT use add_chat_message()"))%list,
     Return false).
Proof.
  apply (X5_message_handler_region_is_empty _ ("import os" +:+ Py.nl) "handle_message"
           ("msg):" +:+ Py.nl +:+ "    add_chat_message(msg)")).
  - vm_compute. reflexivity.
  - reflexivity.
  - discriminate.
  - reflexivity.
Defined.

(** ** The static script without its project root *)

(** X6.  When the project root is not a directory of the machine,
    [os.chdir] raises in [main], outside any [try]: the static script
    prints its banner and ends with that exception; no check is run and no
    summary is printed. *)
Theorem X6_missing_project_root_aborts (w : world) :
  StaticAnalysis.project_root ∉ dirs w ->
  StaticAnalysis.main w
  = (banner (StaticMain w), Raise (no_such_file StaticAnalysis.project_root)).
Proof.
  intros Hd. unfold StaticAnalysis.main.
  rewrite !bind_print, (chdir_no_root w Hd), bind_raise. reflexivity.
Qed.

Lemma X6_missing_project_root_aborts_witness :
  StaticAnalysis.main {| cwd := "/"; dirs := ∅; files := ∅ |}
  = (banner (StaticMain {| cwd := "/"; dirs := ∅; files := ∅ |}),
     Raise (no_such_file StaticAnalysis.project_root)).
Proof.
  apply (X6_missing_project_root_aborts {| cwd := "/"; dirs := ∅; files := ∅ |}).
  apply not_elem_of_empty.
Defined.

(** ** The checks of the dynamic script catch their own exceptions *)

Lemma try_except_returns {A} (m : io A) (h : exn -> io A) :
  (forall e, returns (h e)) -> returns (try_except m h).
Proof.
  intros Hh. destruct m as [out [a|e]]; cbn [try_except].
  - now exists out, a.
  - destruct (Hh e) as (out' & a & ->). now exists (out ++ out')%list, a.
Qed.

Lemma returns_after_print {A} (line : string) (m : io A) :
  returns m -> returns (bind (print line) (fun _ => m)).
Proof.
  intros (out & a & ->). rewrite bind_print. now exists (Print line :: out), a.
Qed.

Lemma on_error_returns (what : string) (e : exn) :
  returns (CriticalFixes.on_error what e).
Proof. now exists (fst (CriticalFixes.on_error what e)), false. Qed.

(** X7.  No check of the dynamic script raises, whatever the imports, the
    live module and the files do: each one catches the exceptions of its
    own body and returns a [bool].  So the handler of the loop of its
    [main] is never entered, and the value recorded for a check is the
    value that the check returned. *)
Theorem X7_dynamic_checks_never_raise (v : CriticalFixes.env) :
  Forall (fun t => returns (snd t v)) CriticalFixes.all_tests
  /\ catalog_output (critical_catalog CriticalFixes.all_tests v)
     = List.concat (map (fun t : string * (CriticalFixes.env -> io bool) => fst (snd t v))
                      CriticalFixes.all_tests).
Proof.
  assert (H : Forall (fun t : string * (CriticalFixes.env -> io bool) => returns (snd t v))
                CriticalFixes.all_tests).
  { unfold CriticalFixes.all_tests.
    repeat (apply Forall_cons; split;
            [cbn [snd]; apply returns_after_print, try_except_returns;
             intros e; try apply on_error_returns|]).
    - unfold CriticalFixes.print_fail. rewrite bind_print. now eexists _, _.
    - apply Forall_nil. exact I. }
  split; [exact H|].
  unfold catalog_output, critical_catalog. rewrite map_map. f_equal.
  induction H as [|t l (out & b & Ht) _ IH]; [reflexivity|].
  cbn [map]. rewrite IH. f_equal. cbn [snd].
  unfold rule_output. rewrite Ht. cbn [fst snd]. apply app_nil_r.
Qed.

(** ** Failing imports *)

Ltac import_fails H :=
  match goal with
  | |- ?f ?v = _ => unfold f, caught, CriticalFixes.print_test
  end;
  rewrite bind_print, ?H; reflexivity.

(** X8.  When [import app.app] raises, each of the four checks that start
    with this import (the uniqueness of the function, the two storage
    checks and the Redis functions) prints its header, its own error line
    with the text of the exception and the trace, and returns [False]: the
    failure of the import is a FAIL of each of these checks, not the end of
    the run. *)
Theorem X8_import_of_module_fails (v : CriticalFixes.env) (e : exn) :
  CriticalFixes.import_app_app v = Raise e ->
  CriticalFixes.test_verify_signature_function v
  = caught "Issue #1: Verify signature function is unique" "Error checking functions" e
  /\ CriticalFixes.test_oauth_storage_postgresql v
     = caught "Issue #2: OAuth storage uses PostgreSQL" "Error testing OAuth storage" e
  /\ CriticalFixes.test_oauth_code_storage v
     = caught "Issue #2: OAuth authorization codes use PostgreSQL"
         "Error testing OAuth code storage" e
  /\ CriticalFixes.test_chat_history_redis_functions v
     = caught "Issue #3: Chat history Redis functions exist"
         "Error testing chat history functions" e.
Proof. intros H. repeat split; import_fails H. Qed.

(** X9.  When [from app import app] raises, the route check and the check
    of the message handler each print their header, their own error line
    with the text of the exception and the trace, and return [False]; the
    message handler check does so before it reads any file. *)
Theorem X9_import_of_application_fails (v : CriticalFixes.env) (e : exn) :
  CriticalFixes.import_app v = Raise e ->
  CriticalFixes.test_no_duplicate_verify_signature v
  = caught "Issue #1: No duplicate /verify_signature routes" "Error testing routes" e
  /\ CriticalFixes.test_chat_message_handler v
     = caught "Issue #3: WebSocket handler uses new chat functions"
         "Error testing message handler" e.
Proof. intros H. repeat split; import_fails H. Qed.

Lemma X8_import_of_module_fails_witness :
  CriticalFixes.test_verify_signature_function
    (broken_package (Exception "No module named 'flask'"))
  = caught "Issue #1: Verify signature function is unique" "Error checking functions"
      (Exception "No module named 'flask'").
Proof.
  apply (X8_import_of_module_fails (broken_package (Exception "No module named 'flask'"))).
  reflexivity.
Defined.

Lemma X9_import_of_application_fails_witness :
  CriticalFixes.test_no_duplicate_verify_signature
    (broken_package (Exception "No module named 'flask'"))
  = caught "Issue #1: No duplicate /verify_signature routes" "Error testing routes"
      (Exception "No module named 'flask'").
Proof.
  apply (X9_import_of_application_fails (broken_package (Exception "No module named 'flask'"))).
  reflexivity.
Defined.

(** ** The DEPRECATED mark of CHAT_HISTORY *)

Lemma for_return_some_true {A} (l : list A) (body : A -> io (option bool)) :
  (forall x, exists out, body x = (out, Return (Some true)) \/ body x = (out, Return None)) ->
  exists out r, for_return l body = (out, Return r) /\ (r = Some true \/ r = None).
Proof.
  intros Hb. induction l as [|x l (out' & r' & IH & Hr')]; cbn [for_return].
  - exists [], None. auto.
  - destruct (Hb x) as (out & [Hx|Hx]); rewrite Hx; cbn [bind ret].
    + exists (out ++ [])%list, (Some true). auto.
    + rewrite IH. exists (out ++ out')%list, r'. auto.
Qed.

(** X10.  The dynamic script only warns about the DEPRECATED mark of
    CHAT_HISTORY: whenever [app/app.py] can be read, its check returns
    [True], whatever the text is. *)
Theorem X10_dynamic_deprecation_check_only_warns (v : CriticalFixes.env) (source : string) :
  open_read (CriticalFixes.fs v) "app/app.py" = ret source ->
  snd (CriticalFixes.test_chat_history_deprecated v) = Return true.
Proof.
  intros Hread. unfold CriticalFixes.test_chat_history_deprecated, CriticalFixes.print_test.
  rewrite bind_print, Hread, bind_ret. cbn [snd].
  match goal with
  | |- context [bind ?m _] =>
      assert (Hm : exists out r, m = (out, Return r) /\ (r = Some true \/ r = None))
  end.
  { destruct (_ && _); [|exists [], None; auto].
    apply for_return_some_true. intros [i line].
    destruct (Py.str_in "CHAT_HISTORY: List" line); [|exists []; auto].
    destruct (Py.str_in "DEPRECATED" _); [|exists []; auto].
    unfold CriticalFixes.print_pass. rewrite bind_print. eexists. left. reflexivity. }
  destruct Hm as (out & r & -> & [-> | ->]); cbn [bind ret try_except snd fst].
  - reflexivity.
  - unfold CriticalFixes.print_warn. rewrite bind_print. reflexivity.
Qed.

Lemma X10_dynamic_deprecation_check_only_warns_witness :
  snd (CriticalFixes.test_chat_history_deprecated
         {| CriticalFixes.fs := in_root (Examples.world_with (Some ""));
            CriticalFixes.import_app := Raise (Exception "");
            CriticalFixes.import_app_app := Raise (Exception "");
            CriticalFixes.import_db_storage := Raise (Exception "") |})
  = Return true.
Proof.
  apply (X10_dynamic_deprecation_check_only_warns _ "").
  vm_compute. reflexivity.
Defined.

Lemma split_no_newline (s : string) :
  Py.has_char Py.newline s = false -> Py.split Py.newline s = [s].
Proof.
  unfold Py.has_char. induction s as [|c s IH]; intros H; [reflexivity|].
  cbn [list_ascii_of_string existsb] in H. apply orb_false_iff in H as [Hc H].
  cbn [Py.split]. rewrite Ascii.eqb_sym, Hc, (IH H). reflexivity.
Qed.

(** X11.  The static script does not accept a mark on the line of the
    declaration itself: for every text of a single line (no newline), its
    check of the DEPRECATED mark of CHAT_HISTORY fails, whatever the line
    holds, since only the lines before the declaration are searched. *)
Theorem X11_static_deprecation_check_needs_a_line_before (w : world) (source : string) :
  StaticAnalysis.read_file w "app/app.py" = ret source ->
  Py.has_char Py.newline source = false ->
  StaticAnalysis.test_issue3_chat_history_deprecated w
  = ((fst (StaticAnalysis.test "Issue #3: CHAT_HISTORY marked DEPRECATED")
      ++ fst (StaticAnalysis.fail "CHAT_HISTORY not clearly marked as DEPRECATED"))%list,
     Return false).
Proof.
  intros Hread Hnl. unfold StaticAnalysis.test_issue3_chat_history_deprecated.
  unfold StaticAnalysis.test at 1. rewrite bind_print, Hread, bind_ret.
  rewrite (split_no_newline source Hnl).
  cbn [Py.enumerate for_return]. change (Z.max 0 (0 - 5)) with 0.
  destruct (Py.str_in "CHAT_HISTORY: List" source); reflexivity.
Qed.

Lemma X11_static_deprecation_check_needs_a_line_before_witness :
  StaticAnalysis.test_issue3_chat_history_deprecated
    (in_root (Examples.world_with (Some "CHAT_HISTORY: List = []  # DEPRECATED")))
  = ((fst (StaticAnalysis.test "Issue #3: CHAT_HISTORY marked DEPRECATED")
      ++ fst (StaticAnalysis.fail "CHAT_HISTORY not clearly marked as DEPRECATED"))%list,
     Return false).
Proof.
  apply (X11_static_deprecation_check_needs_a_line_before _
           "CHAT_HISTORY: List = []  # DEPRECATED").
  - vm_compute. reflexivity.
  - reflexivity.
Defined.

(** ** The uniqueness of the function verify_signature *)

Lemma list_in_true (x : string) (l : list string) : Py.list_in x l = true <-> x ∈ l.
Proof.
  unfold Py.list_in. rewrite existsb_exists. split.
  - intros (y & Hy & He). apply String.eqb_eq in He. subst y. now apply list_elem_of_In.
  - intros H. exists x. split; [now apply list_elem_of_In|apply String.eqb_refl].
Qed.

Lemma matching_functions (x : string) (members : list (string * bool)) :
  Py.str_in "verify_signature" x = true ->
  x ∈ map fst (List.filter (fun '(name, isfunction) =>
                 isfunction && Py.str_in "verify_signature" name) members)
  <-> (x, true) ∈ members.
Proof.
  intros Hx. rewrite !list_elem_of_In, in_map_iff. split.
  - intros ([n f] & <- & Hin). apply filter_In in Hin as [Hin Hc].
    apply andb_true_iff in Hc as [-> _]. exact Hin.
  - intros Hin. exists (x, true). split; [reflexivity|].
    apply filter_In. split; [exact Hin|]. cbn. exact Hx.
Qed.

(** X12.  When [import app.app] succeeds, the check of the uniqueness of
    the function returns [True] exactly when the module has a function
    named [verify_signature] and no function named
    [verify_signature_legacy]; members that are not functions do not
    count. *)
Theorem X12_function_uniqueness (v : CriticalFixes.env) (m : CriticalFixes.app_module) :
  CriticalFixes.import_app_app v = Return m ->
  snd (CriticalFixes.test_verify_signature_function v) = Return true
  <-> ("verify_signature", true) ∈ CriticalFixes.getmembers m
      /\ ("verify_signature_legacy", true) ∉ CriticalFixes.getmembers m.
Proof.
  intros Himp. unfold CriticalFixes.test_verify_signature_function, CriticalFixes.print_test.
  set (T := try_except _ _). rewrite bind_print. cbn [snd]. unfold T. clear T.
  rewrite Himp. unfold CriticalFixes.lift. rewrite (bind_ret m).
  unfold CriticalFixes.print_info, CriticalFixes.print_pass, CriticalFixes.print_fail.
  rewrite bind_print.
  rewrite <- (matching_functions "verify_signature" (CriticalFixes.getmembers m) eq_refl).
  rewrite <- (matching_functions "verify_signature_legacy" (CriticalFixes.getmembers m) eq_refl).
  rewrite <- !list_in_true.
  destruct (Py.list_in "verify_signature" _); rewrite bind_print; cbn [snd fst].
  - destruct (Py.list_in "verify_signature_legacy" _); rewrite bind_print; cbn;
      split; intuition congruence.
  - cbn. split; intuition congruence.
Qed.

Lemma X12_function_uniqueness_witness :
  snd (CriticalFixes.test_verify_signature_function (module_env clean_module))
  = Return true.
Proof.
  apply (proj2 (X12_function_uniqueness (module_env clean_module) clean_module eq_refl)).
  split.
  - apply list_elem_of_In. cbn. auto.
  - rewrite list_elem_of_In. cbn. intuition congruence.
Defined.

(** ** The message handler check of the dynamic script *)

Lemma for_fold_returns {A S} (l : list A) (s : S) (body : S -> A -> io S) :
  (forall s x, returns (body s x)) -> returns (for_fold l s body).
Proof.
  intros Hb. revert s. induction l as [|x l IH]; intros s; cbn [for_fold].
  - now exists [], s.
  - destruct (Hb s x) as (out & s' & ->). cbn [bind].
    destruct (IH s') as (out' & s'' & ->). now exists (out ++ out')%list, s''.
Qed.

Lemma snd_bind_returns {A B} (m : io A) (k : A -> io B) (b : B) :
  returns m -> (forall a, snd (k a) = Return b) -> snd (bind m k) = Return b.
Proof.
  intros (out & a & ->) Hk. cbn [bind]. specialize (Hk a).
  destruct (k a) as [out' r]. exact Hk.
Qed.

(** X13.  When both imports succeed and [app/app.py] can be read, the
    message handler check of the dynamic script returns [True] exactly
    when the text has an occurrence of [add_chat_message(]: the direct
    appends to CHAT_HISTORY that it looks for afterwards are only warned
    about and never change the result. *)
Theorem X13_message_handler_check (v : CriticalFixes.env) (a : CriticalFixes.flask_app)
    (m : CriticalFixes.app_module) (source : string) :
  CriticalFixes.import_app v = Return a ->
  CriticalFixes.import_app_app v = Return m ->
  open_read (CriticalFixes.fs v) "app/app.py" = ret source ->
  snd (CriticalFixes.test_chat_message_handler v)
  = Return (Py.str_in "add_chat_message(" source).
Proof.
  intros Ha Hm Hread.
  unfold CriticalFixes.test_chat_message_handler, CriticalFixes.print_test.
  set (T := try_except _ _). rewrite bind_print. cbn [snd]. unfold T. clear T.
  rewrite Ha, Hm. unfold CriticalFixes.lift.
  rewrite (bind_ret a), (bind_ret m), Hread, bind_ret.
  unfold CriticalFixes.print_pass, CriticalFixes.print_fail, CriticalFixes.print_warn,
    CriticalFixes.print_info.
  destruct (Py.str_in "add_chat_message(" source).
  - rewrite bind_print.
    match goal with
    | |- snd (try_except (_, snd ?x) _) = _ => assert (Hx : snd x = Return true)
    end.
    { apply snd_bind_returns.
      - apply for_fold_returns. intros [bad inf] [i line].
        destruct (_ && _); [destruct (negb _)|]; now eexists _, _.
      - intros [bad st]. cbn [fst].
        apply snd_bind_returns; [|reflexivity].
        destruct bad as [|b bad].
        + now eexists _, _.
        + rewrite bind_print.
          assert (Hf : snd (for_each (Py.slice (b :: bad) 0 3)
                              (fun '(line_num, line) =>
                                 print ("  " +:+ BLUE +:+ "ℹ" +:+ END +:+ " "
                                        +:+ ("  Line " +:+ Py.str_int line_num +:+ ": "
                                             +:+ line)))) = Return tt)
            by (apply for_each_returns; now intros [n l]).
          destruct (for_each _ _) as [o r]. cbn [snd fst] in *. subst r.
          now eexists _, _. }
    rewrite Hx. reflexivity.
  - rewrite bind_print. reflexivity.
Qed.

Lemma X13_message_handler_check_witness :
  snd (CriticalFixes.test_chat_message_handler
         (running_env "CHAT_HISTORY.append(msg)"))
  = Return false.
Proof.
  apply (X13_message_handler_check (running_env "CHAT_HISTORY.append(msg)")
           running_app clean_module "CHAT_HISTORY.append(msg)").
  - reflexivity.
  - reflexivity.
  - vm_compute. reflexivity.
Defined.

(** ** The Redis operations check *)

(** X14.  The check of the Redis operations never fails on a text: for
    every text of [app/app.py] it returns [True], and only warns about an
    operation (LPUSH, LRANGE, LTRIM) that the text does not use. *)
Theorem X14_redis_operations_check_only_warns (w : world) (source : string) :
  StaticAnalysis.read_file w "app/app.py" = ret source ->
  snd (StaticAnalysis.test_issue3_redis_operations_used w) = Return true.
Proof.
  intros Hread. unfold StaticAnalysis.test_issue3_redis_operations_used.
  unfold StaticAnalysis.test at 1. rewrite bind_print, Hread, bind_ret. cbn [snd].
  cbn [for_fold]. unfold StaticAnalysis.ok, StaticAnalysis.warn.
  destruct (Py.str_in ("redis_client." +:+ "lpush") source);
    destruct (Py.str_in ("redis_client." +:+ "lrange") source);
    destruct (Py.str_in ("redis_client." +:+ "ltrim") source);
    reflexivity.
Qed.

Lemma X14_redis_operations_check_only_warns_witness :
  snd (StaticAnalysis.test_issue3_redis_operations_used
         (in_root (Examples.world_with (Some ""))))
  = Return true.
Proof.
  apply (X14_redis_operations_check_only_warns _ "").
  vm_compute. reflexivity.
Defined.

(** ** The two summaries *)

Lemma count_true_false (l : list bool) :
  count_if (fun r => r) l + count_if (fun r => negb r) l = len l.
Proof.
  unfold count_if, len. induction l as [|[|] l IH]; cbn [List.filter negb List.length]; lia.
Qed.

Lemma no_false_iff (results : dict) :
  count_if (fun r => negb r) (values results) = 0
  <-> forall name r, (name, r) ∈ results -> r = true.
Proof.
  unfold count_if, values. induction results as [|[n b] d IH].
  - split; [intros _ name r H; now apply elem_of_nil in H|reflexivity].
  - cbn [map snd List.filter]. destruct b; cbn [negb].
    + rewrite IH. split.
      * intros H name r Hin. apply elem_of_cons in Hin as [Heq|Hin];
          [now inversion Heq|now apply (H name)].
      * intros H name r Hin. apply (H name). now apply list_elem_of_further.
    + cbn [List.length]. split; [lia|].
      intros H. specialize (H n false (list_elem_of_here _ _)). discriminate.
Qed.

(** X15.  The two scripts summarise a dict of results in the same way,
    although the static one computes the failed count as total minus
    passed and the dynamic one counts the [False] values: the passed and
    the failed count add up to the total, both summaries return the same
    exit code, and that code is 0 exactly when every recorded result is
    [True]. *)
Theorem X15_summaries_agree (results : dict) :
  count_if (fun r => r) (values results) + count_if (fun r => negb r) (values results)
  = len results
  /\ snd (StaticAnalysis.summary results) = snd (CriticalFixes.summary results)
  /\ (snd (CriticalFixes.summary results) = Return 0
      <-> forall name r, (name, r) ∈ results -> r = true).
Proof.
  pose proof (count_true_false (values results)) as Hsum.
  assert (Hlen : len (values results) = len results)
    by (unfold len, values; now rewrite length_map).
  rewrite Hlen in Hsum.
  destruct (static_summary results) as [Hs _].
  destruct (critical_summary results) as [Hc _]. cbv zeta in Hs, Hc.
  replace (len results - count_if (fun r => r) (values results))
    with (count_if (fun r => negb r) (values results)) in Hs by lia.
  split; [exact Hsum|]. split; [now rewrite Hs, Hc|].
  rewrite Hc, <- no_false_iff.
  destruct (Z.eqb_spec (count_if (fun r => negb r) (values results)) 0) as [->|Hne];
    split; intros H; try reflexivity; try congruence.
Qed.

(** ** wsgi.py *)

(** X16.  After the module is loaded, the directory of its file is in
    [sys.path], at the front when it was not there before; the entries
    that were there stay, and no entry is added twice: a [sys.path]
    without duplicates stays so, and it is left as it was when it already
    had the directory. *)
Theorem X16_sys_path_after_load (l : Wsgi.loader) (st : Wsgi.module_state) :
  Wsgi.load l = Return st ->
  (forall x, x ∈ Wsgi.path st <-> x = Wsgi.dirname l \/ x ∈ Wsgi.sys_path l)
  /\ (NoDup (Wsgi.sys_path l) -> NoDup (Wsgi.path st))
  /\ (Wsgi.dirname l ∈ Wsgi.sys_path l -> Wsgi.path st = Wsgi.sys_path l)
  /\ (Wsgi.dirname l ∉ Wsgi.sys_path l ->
      Wsgi.path st = Wsgi.dirname l :: Wsgi.sys_path l).
Proof.
  unfold Wsgi.load. destruct (Wsgi.import_app l) as [a|e]; [|discriminate].
  destruct (if String.eqb (Wsgi.module_name l) "__main__" then _ else _) as [u|e];
    [|discriminate].
  destruct (Wsgi.name _ "app") as [x|e]; [|discriminate].
  intros H. inversion H as [Hst]. clear H Hst. cbn [Wsgi.path].
  pose proof (list_in_true (Wsgi.dirname l) (Wsgi.sys_path l)) as Hin.
  destruct (Py.list_in (Wsgi.dirname l) (Wsgi.sys_path l)); cbn [negb].
  - assert (Hd : Wsgi.dirname l ∈ Wsgi.sys_path l) by now apply Hin.
    repeat split; auto.
    + intros [-> | ?]; auto.
    + intros Hn. contradiction.
  - assert (Hd : Wsgi.dirname l ∉ Wsgi.sys_path l)
      by (intros Hd; apply Hin in Hd; discriminate).
    repeat split; auto.
    + intros Hx. apply elem_of_cons in Hx. exact Hx.
    + intros Hx. apply elem_of_cons. exact Hx.
    + intros Hnd. now apply NoDup_cons.
    + intros Hd'. contradiction.
Qed.

Lemma X16_sys_path_after_load_witness :
  exists st : Wsgi.module_state,
    Wsgi.load Examples.imported_wsgi = Return st
    /\ Wsgi.path st = ["/srv/chat"; "/usr/lib/python3"].
Proof.
  destruct (Wsgi.load Examples.imported_wsgi) as [st|e] eqn:E; [|discriminate E].
  destruct (X16_sys_path_after_load Examples.imported_wsgi st E) as (_ & _ & _ & H).
  exists st. split; [reflexivity|]. apply H.
  rewrite list_elem_of_In. cbn. intuition congruence.
Defined.

(** X17.  A module that is imported (its name is not [__main__]) never
    calls [app.run()]: what loading it gives does not depend on what a call
    of [run] would do. *)
Theorem X17_import_does_not_run_the_app (l : Wsgi.loader)
    (run : Wsgi.obj -> result unit) :
  Wsgi.module_name l <> "__main__" ->
  Wsgi.load l
  = Wsgi.load {| Wsgi.module_name := Wsgi.module_name l;
                 Wsgi.dirname := Wsgi.dirname l;
                 Wsgi.sys_path := Wsgi.sys_path l;
                 Wsgi.os_module := Wsgi.os_module l;
                 Wsgi.sys_module := Wsgi.sys_module l;
                 Wsgi.import_app := Wsgi.import_app l;
                 Wsgi.app_run := run |}.
Proof.
  intros Hname. unfold Wsgi.load. cbn [Wsgi.module_name Wsgi.dirname Wsgi.sys_path
    Wsgi.os_module Wsgi.sys_module Wsgi.import_app Wsgi.app_run].
  destruct (Wsgi.import_app l) as [a|e]; [|reflexivity].
  destruct (String.eqb_spec (Wsgi.module_name l) "__main__") as [Heq|_];
    [contradiction|reflexivity].
Qed.

Lemma X17_import_does_not_run_the_app_witness :
  Wsgi.load Examples.imported_wsgi
  = Wsgi.load {| Wsgi.module_name := "wsgi";
                 Wsgi.dirname := "/srv/chat";
                 Wsgi.sys_path := ["/usr/lib/python3"];
                 Wsgi.os_module := 1%positive;
                 Wsgi.sys_module := 2%positive;
                 Wsgi.import_app := Return 3%positive;
                 Wsgi.app_run := fun _ => Raise (Exception "address already in use") |}.
Proof.
  apply (X17_import_does_not_run_the_app Examples.imported_wsgi
           (fun _ => Raise (Exception "address already in use"))).
  discriminate.
Defined.

(** X18.  Loading the module raises [e] exactly when the import of the
    application raises [e], or when the module is run as a script and
    [app.run()] raises [e]; in both cases nothing is exported. *)
Theorem X18_load_failure (l : Wsgi.loader) (e : exn) :
  Wsgi.load l = Raise e
  <-> Wsgi.import_app l = Raise e
      \/ exists a, Wsgi.import_app l = Return a
                   /\ Wsgi.module_name l = "__main__"
                   /\ Wsgi.app_run l a = Raise e.
Proof.
  unfold Wsgi.load. destruct (Wsgi.import_app l) as [a|e1].
  - unfold Wsgi.name. rewrite lookup_insert_eq.
    destruct (String.eqb_spec (Wsgi.module_name l) "__main__") as [Heq|Hne].
    + destruct (Wsgi.app_run l a) as [u|e2] eqn:Hrun.
      * split; [discriminate|]. intros [H|(b & Hb & _ & Hr)]; [discriminate|].
        inversion Hb. subst b. congruence.
      * split.
        -- intros H. inversion H. subst e2. right. exists a. auto.
        -- intros [H|(b & Hb & _ & Hr)]; [discriminate|].
           inversion Hb. subst b. congruence.
    + split; [discriminate|]. intros [H|(b & _ & Hn & _)]; [discriminate|contradiction].
  - split.
    + intros H. inversion H. now left.
    + intros [H|(a & Ha & _)]; [now inversion H|discriminate].
Qed.

(** ** The static script and the current directory *)

Lemma chdir_root_cases (w : world) :
  chdir w StaticAnalysis.project_root
  = if decide (StaticAnalysis.project_root ∈ dirs w)
    then ret (in_root w)
    else raise (no_such_file StaticAnalysis.project_root).
Proof.
  destruct (decide (StaticAnalysis.project_root ∈ dirs w)) as [H|H].
  - now apply chdir_root.
  - now apply chdir_no_root.
Qed.

(** X19.  The static script can be started from any directory: it changes
    to the project root, an absolute path, before any check reads a file,
    so its output and its result do not depend on the current directory of
    the process. *)
Theorem X19_static_main_ignores_cwd (w : world) (dir : string) :
  StaticAnalysis.main {| cwd := dir; dirs := dirs w; files := files w |}
  = StaticAnalysis.main w.
Proof.
  unfold StaticAnalysis.main. rewrite !chdir_root_cases. cbn [dirs].
  destruct (decide (StaticAnalysis.project_root ∈ dirs w)); reflexivity.
Qed.

(** ** Presence and absence under a larger text *)

Lemma str_in_within (x pre s post : string) :
  Py.str_in x s = true -> Py.str_in x (pre +:+ s +:+ post) = true.
Proof. intros H. now apply str_in_app_r, str_in_app_l. Qed.

Lemma uses_store_oauth_client_result (w : world) (source : string) :
  StaticAnalysis.read_file w "app/app.py" = ret source ->
  snd (StaticAnalysis.test_issue2_uses_store_oauth_client w)
  = Return (Py.str_in "store_oauth_client(" source).
Proof.
  intros H. unfold StaticAnalysis.test_issue2_uses_store_oauth_client.
  unfold StaticAnalysis.test at 1. rewrite bind_print, H, bind_ret.
  now destruct (Py.str_in _ source).
Qed.

Lemma uses_get_oauth_client_result (w : world) (source : string) :
  StaticAnalysis.read_file w "app/app.py" = ret source ->
  snd (StaticAnalysis.test_issue2_uses_get_oauth_client w)
  = Return (Py.str_in "get_oauth_client(" source).
Proof.
  intros H. unfold StaticAnalysis.test_issue2_uses_get_oauth_client.
  unfold StaticAnalysis.test at 1. rewrite bind_print, H, bind_ret.
  now destruct (Py.str_in _ source).
Qed.

Lemma uses_oauth_code_functions_result (w : world) (source : string) :
  StaticAnalysis.read_file w "app/app.py" = ret source ->
  snd (StaticAnalysis.test_issue2_uses_oauth_code_functions w)
  = Return (Py.str_in "store_oauth_code(" source
            && Py.str_in "get_oauth_code(" source
            && Py.str_in "delete_oauth_code(" source).
Proof.
  intros H. unfold StaticAnalysis.test_issue2_uses_oauth_code_functions.
  unfold StaticAnalysis.test at 1. rewrite bind_print, H, bind_ret. cbn [snd for_fold].
  change ("store_oauth_code" +:+ "(") with "store_oauth_code(".
  change ("get_oauth_code" +:+ "(") with "get_oauth_code(".
  change ("delete_oauth_code" +:+ "(") with "delete_oauth_code(".
  destruct (Py.str_in "store_oauth_code(" source);
    destruct (Py.str_in "get_oauth_code(" source);
    destruct (Py.str_in "delete_oauth_code(" source); reflexivity.
Qed.

Lemma redis_functions_exist_result (w : world) (source : string) :
  StaticAnalysis.read_file w "app/app.py" = ret source ->
  snd (StaticAnalysis.test_issue3_redis_functions_exist w)
  = Return (Py.str_in "def get_chat_history(" source
            && Py.str_in "def add_chat_message(" source
            && Py.str_in "def purge_old_chat_messages(" source).
Proof.
  intros H. unfold StaticAnalysis.test_issue3_redis_functions_exist.
  unfold StaticAnalysis.test at 1. rewrite bind_print, H, bind_ret. cbn [snd for_fold].
  destruct (Py.str_in "def get_chat_history(" source);
    destruct (Py.str_in "def add_chat_message(" source);
    destruct (Py.str_in "def purge_old_chat_messages(" source); reflexivity.
Qed.

Lemma get_redis_import_result (w : world) (source : string) :
  StaticAnalysis.read_file w "app/app.py" = ret source ->
  snd (StaticAnalysis.test_issue3_get_redis_import w)
  = Return (Py.str_in "from app.database import" source && Py.str_in "get_redis" source).
Proof.
  intros H. unfold StaticAnalysis.test_issue3_get_redis_import.
  unfold StaticAnalysis.test at 1. rewrite bind_print, H, bind_ret.
  now destruct (_ && _).
Qed.

Lemma no_legacy_function_result (w : world) (source : string) :
  StaticAnalysis.read_file w "app/app.py" = ret source ->
  snd (StaticAnalysis.test_issue1_no_legacy_function w)
  = Return (negb (Py.str_in "def verify_signature_legacy(" source)).
Proof.
  intros H. unfold StaticAnalysis.test_issue1_no_legacy_function.
  unfold StaticAnalysis.test at 1. rewrite bind_print, H, bind_ret.
  now destruct (Py.str_in _ source).
Qed.

Ltac grows H :=
  repeat match goal with
  | |- (_ && _ = true) => apply andb_true_iff; split
  | H : (_ && _ = true) |- _ => apply andb_true_iff in H as [? ?]
  end; now apply str_in_within.

(** X20.  A presence check that passes on a text passes on every text that
    contains it: when [app/app.py] is extended before and after, the checks
    for store_oauth_client, get_oauth_client, the three OAuth code
    functions, the three chat history functions and the get_redis import
    stay passed. *)
Theorem X20_presence_checks_are_monotone (w w' : world) (pre source post : string) :
  StaticAnalysis.read_file w "app/app.py" = ret source ->
  StaticAnalysis.read_file w' "app/app.py" = ret (pre +:+ source +:+ post) ->
  Forall (fun check : world -> io bool =>
            snd (check w) = Return true -> snd (check w') = Return true)
         presence_checks.
Proof.
  intros H H'. unfold presence_checks.
  repeat (apply Forall_cons; split); try (apply Forall_nil; exact I).
  - rewrite (uses_store_oauth_client_result w source H),
      (uses_store_oauth_client_result w' _ H').
    intros E. inversion E as [E']. rewrite E'. f_equal. now apply str_in_within.
  - rewrite (uses_get_oauth_client_result w source H),
      (uses_get_oauth_client_result w' _ H').
    intros E. inversion E as [E']. rewrite E'. f_equal. now apply str_in_within.
  - rewrite (uses_oauth_code_functions_result w source H),
      (uses_oauth_code_functions_result w' _ H').
    intros E. inversion E as [E']. rewrite E'. f_equal.
    apply andb_true_iff in E' as [E' E3]. apply andb_true_iff in E' as [E1 E2].
    now rewrite !str_in_within.
  - rewrite (redis_functions_exist_result w source H),
      (redis_functions_exist_result w' _ H').
    intros E. inversion E as [E']. rewrite E'. f_equal.
    apply andb_true_iff in E' as [E' E3]. apply andb_true_iff in E' as [E1 E2].
    now rewrite !str_in_within.
  - rewrite (get_redis_import_result w source H), (get_redis_import_result w' _ H').
    intros E. inversion E as [E']. rewrite E'. f_equal.
    apply andb_true_iff in E' as [E1 E2].
    now rewrite !str_in_within.
Qed.

Lemma X20_presence_checks_are_monotone_witness :
  Forall (fun check : world -> io bool =>
            snd (check (in_root (Examples.world_with (Some "store_oauth_client(c)"))))
            = Return true ->
            snd (check (in_root (Examples.world_with
                   (Some ("def register(c):" +:+ "store_oauth_client(c)" +:+ "; return c")))))
            = Return true)
         presence_checks.
Proof.
  apply (X20_presence_checks_are_monotone _ _ "def register(c):" "store_oauth_client(c)"
           "; return c").
  - vm_compute. reflexivity.
  - vm_compute. reflexivity.
Defined.

(** X21.  An absence check that passes on a text passes on every part of
    it: when the checks for verify_signature_legacy and for get_storage()
    pass on [app/app.py], they pass on any text cut out of it. *)
Theorem X21_absence_checks_are_antimonotone (w w' : world) (pre source post : string) :
  StaticAnalysis.read_file w "app/app.py" = ret source ->
  StaticAnalysis.read_file w' "app/app.py" = ret (pre +:+ source +:+ post) ->
  Forall (fun check : world -> io bool =>
            snd (check w') = Return true -> snd (check w) = Return true)
         absence_checks.
Proof.
  intros H H'. unfold absence_checks.
  repeat (apply Forall_cons; split); try (apply Forall_nil; exact I).
  - rewrite (no_legacy_function_result w source H), (no_legacy_function_result w' _ H').
    intros E. inversion E as [E']. rewrite E'. f_equal.
    apply negb_true_iff in E'. apply negb_true_iff.
    destruct (Py.str_in _ source) eqn:Es; [|reflexivity].
    now rewrite (str_in_within _ pre source post Es) in E'.
  - rewrite (X2_get_storage_check_passes_iff_absent w source H),
      (X2_get_storage_check_passes_iff_absent w' _ H').
    intros E. inversion E as [E']. rewrite E'. f_equal.
    apply negb_true_iff in E'. apply negb_true_iff.
    destruct (Py.str_in _ source) eqn:Es; [|reflexivity].
    now rewrite (str_in_within _ pre source post Es) in E'.
Qed.

Lemma X21_absence_checks_are_antimonotone_witness :
  Forall (fun check : world -> io bool =>
            snd (check (in_root (Examples.world_with
                   (Some ("import os" +:+ "def verify_signature():" +:+ " pass")))))
            = Return true ->
            snd (check (in_root (Examples.world_with (Some "def verify_signature():"))))
            = Return true)
         absence_checks.
Proof.
  apply (X21_absence_checks_are_antimonotone _ _ "import os" "def verify_signature():"
           " pass").
  - vm_compute. reflexivity.
  - vm_compute. reflexivity.
Defined.

(** ** C2 without the project root *)

(** C2, as stated, fails on a machine without the project root: the static
    script prints its banner and raises at [os.chdir], before any check.
    No check has a verdict, so no verdict is FAIL; yet [main] returns no
    exit code, 0 or other, and prints no summary line. *)
Lemma C2_counterexample :
  StaticAnalysis.main no_project_root
  = (banner (StaticMain no_project_root),
     Raise (no_such_file StaticAnalysis.project_root))
  /\ (forall code : Z, snd (StaticAnalysis.main no_project_root) <> Return code)
  /\ (forall passed total failed : Z,
        printed (StaticAnalysis.result_line passed total failed)
          (fst (StaticAnalysis.main no_project_root)) = false).
Proof.
  assert (H : StaticAnalysis.main no_project_root
              = (banner (StaticMain no_project_root),
                 Raise (no_such_file StaticAnalysis.project_root)))
    by (vm_compute; reflexivity).
  split; [exact H|]. rewrite H. split.
  - intros code. discriminate.
  - intros passed total failed. reflexivity.
Qed.

(** ** The boundaries of the handler pattern *)

Lemma skip_word_split (s : string) :
  exists n : string,
    s = n +:+ skip_word s /\ forallb Re.is_word (list_ascii_of_string n) = true.
Proof.
  induction s as [|c s (n & Hs & Hn)].
  - now exists "".
  - cbn [skip_word]. destruct (Re.is_word c) eqn:Hc.
    + exists (String c n). rewrite append_cons, <- Hs. split; [reflexivity|].
      cbn [list_ascii_of_string forallb]. now rewrite Hc, Hn.
    + now exists "".
Qed.

(** [boundary_at] is exact: where it holds, the lookahead of the handler
    pattern matches. *)
Lemma boundary_at_matches (t : string) (g : option string) :
  boundary_at t = true ->
  Re.rmatch true
    (Re.RAlt (Re.lit (Py.nl +:+ "@app.route"))
       (Re.RAlt (StaticAnalysis.seq [Re.lit (Py.nl +:+ "def "); Re.RPlus Re.CWord; Re.lit "("])
                (StaticAnalysis.seq [Re.lit (Py.nl +:+ "class "); Re.RPlus Re.CWord])))
    t g (fun s' g' => Some (s', g')) <> None.
Proof.
  intros H. unfold StaticAnalysis.seq. cbn [foldr fold_right].
  rewrite rmatch_alt, rmatch_lit.
  destruct (strip_prefix (Py.nl +:+ "@app.route") t) as [r1|] eqn:E1; [discriminate|].
  unfold boundary_at in H. apply strip_prefix_none in E1. rewrite E1 in H. cbn [orb] in H.
  rewrite rmatch_alt, rmatch_seq, rmatch_lit.
  destruct (strip_prefix (Py.nl +:+ "def ") t) as [[|c r]|] eqn:E2.
  - cbn [orb] in H. rewrite rmatch_seq, rmatch_plus.
    rewrite rmatch_seq, rmatch_lit.
    destruct (strip_prefix (Py.nl +:+ "class ") t) as [[|c' r']|]; try discriminate.
    rewrite rmatch_seq, rmatch_plus. cbn [Re.cset_mem]. rewrite H.
    destruct r' as [|a r']; cbn [Re.greedy_star Re.cset_mem];
      [discriminate|].
    destruct (Re.is_word a); [destruct (Re.greedy_star _ _ _ _ _)|]; discriminate.
  - destruct (Re.is_word c && Py.startswith (skip_word r) "(") eqn:Hd.
    + apply andb_true_iff in Hd as [Hc Hp].
      rewrite rmatch_seq, rmatch_plus. cbn [Re.cset_mem]. rewrite Hc.
      destruct (skip_word_split r) as (n & Hr & Hn).
      apply strip_prefix_startswith in Hp as (rest & Hrest).
      apply strip_prefix_app in Hrest. rewrite Hrest in Hr.
      change ("(" +:+ rest) with (String "("%char rest) in Hr. rewrite Hr.
      rewrite (greedy_star_word true n "("%char rest g _ (rest, g) Hn eq_refl);
        [discriminate|reflexivity].
    + cbn [orb] in H.
      destruct (Re.rmatch true _ (String c r) g _); [discriminate|].
      rewrite rmatch_seq, rmatch_lit.
      destruct (strip_prefix (Py.nl +:+ "class ") t) as [[|c' r']|]; try discriminate.
      rewrite rmatch_seq, rmatch_plus. cbn [Re.cset_mem]. rewrite H.
      destruct r' as [|a r']; cbn [Re.greedy_star Re.cset_mem];
        [discriminate|].
      destruct (Re.is_word a); [destruct (Re.greedy_star _ _ _ _ _)|]; discriminate.
  - cbn [orb] in H. rewrite rmatch_seq, rmatch_lit.
    destruct (strip_prefix (Py.nl +:+ "class ") t) as [[|c' r']|]; try discriminate.
    rewrite rmatch_seq, rmatch_plus. cbn [Re.cset_mem]. rewrite H.
    destruct r' as [|a r']; cbn [Re.greedy_star Re.cset_mem];
      [discriminate|].
    destruct (Re.is_word a); [destruct (Re.greedy_star _ _ _ _ _)|]; discriminate.
Qed.
